(* ===== verification/_CoqProject ===== *)
-Q . S2P
Prelude.v
Books.v
Query.v
Writes.v
Aggregate.v
Indexes.v
Planner.v
Script.v
Calls.v
