(* ===== verification/Prelude.v ===== *)
(** * A verification development of [src/queries.js]

    ** The program

    [src/queries.js] is one asynchronous function, [runAllQueries], that
    connects to a MongoDB server, takes the collection [plp_bookstore.books]
    and runs a fixed sequence of driver calls against it, printing what each
    returns:
    - Tasks 1 to 3 (lines 13-52): [find] with an equality filter on [genre]
      or [author] and a [$gt] filter on [published_year];
    - Task 4 (lines 54-69): [updateOne] with [$set: {price: 9.99}] on the
      first book titled "1984", and a message chosen by [modifiedCount];
    - Task 5 (lines 71-82): [deleteOne] of the first book titled
      "The Great Gatsby", and a message chosen by [deletedCount];
    - Advanced queries 1 to 5 (lines 84-144): [find] with a conjunctive
      filter, projections, a sort on [price] or [published_year], and
      [skip]/[limit] pagination;
    - Aggregations 1 to 3 (lines 146-253): three pipelines of [$group],
      [$project] (with [$round] and [$slice]), [$sort], [$limit] and
      [$addFields] (with [$mod], [$subtract], [$toString], [$concat]);
    - index creation (lines 255-271): two [createIndex] calls, each in a
      [try]/[catch];
    - the explain comparison (lines 273-298): three [find(...).explain]
      calls, printing [totalDocsExamined];
    - the whole body sits in [try]/[catch]/[finally] (lines 7, 300-305),
      and [finally] closes the client.

    The collection and its indexes are the only server state; the script
    interacts with them only through the driver calls, in program order,
    with no concurrency (every call is awaited before the next starts).

    ** The library

    - [Prelude] (this file): the notation scope [mongo_scope], the hint
      database [mongo], the development's tactics, and the generic parts
      every component shares: a stable insertion sort with its
      permutation/sortedness/stability lemmas, MongoDB's [limit]/[skip]
      (where [limit 0] means "no limit"), first-match update and removal on
      a list, and integer rounding half to even ([$round]).
    - [Books]: the data model.  A book is a [Record] of the fields the
      script reads and writes; a BSON value is an [Inductive] with the types
      the collection holds (null, integer, money in cents, string,
      boolean), with MongoDB's cross-type comparison order.  The real
      collection is schemaless and the source declares no document type:
      the record assumes every document has a string title, author and
      genre, an integer year and a boolean [in_stock], and lets price and
      publisher be missing.  Documents of another shape are not modelled.
    - [Query]: the [find] operation: query filters ([$eq], [$gt], [$gte],
      implicit [$and]), cursor options (projection, sort, skip, limit) and
      the script's eight [find] calls (Tasks 1-3, Advanced queries 1-5).
    - [Writes]: [updateOne] with [$set] and [deleteOne] on the collection
      as a list in natural order, with their result counters, and the
      messages Tasks 4 and 5 choose from them.
    - [Aggregate]: the accumulators ([$sum], [$avg], [$first], [$push]),
      [$group] in first-seen order (an accumulator pass, proved equal to
      the reference "distinct keys then filter" semantics), and the three
      pipelines of the script.
    - [Indexes]: [createIndex] on the collection's list of indexes, with
      MongoDB's generated names: it returns the name when the index exists
      under it, throws [IndexOptionsConflict] when the key pattern exists
      under another name and [IndexKeySpecsConflict] when another pattern
      holds the name; a planner that picks the first index whose leading
      field the filter constrains; and [explain]'s [totalDocsExamined]
      (index bounds or collection scan).  A parser of generated names
      ([parse_index_name], fuel: the length of the name) is the inverse
      of [index_name]; [indexes_wf] says every index is [_id_] or sits
      under its generated name.
    - [Planner]: what any query planner promises ([plan_ok]: an index
      scan on a candidate index, a collection scan only without one) as
      the class [Planner]; the modelled planner ([choose_plan]) is an
      instance, and [plan_docs] is the [totalDocsExamined] of a plan.
    - [Script]: the whole of [runAllQueries] as a program in a state and
      exception monad [M] (state: collection, indexes, connection flag,
      console lines, number of driver calls).  Every awaited driver call is
      [call op]: the Section variable [fails] decides which calls (by their
      number in program order) throw, [millis] gives the timings.  The
      tasks are the script's statements in order, with the texts they
      print; [try_catch] and [try_finally] are JavaScript's.  A Hoare-style
      [triple] on [M], with [ReadOnly]/[KeepsColl] lemmas and a hint
      database [script], proves what the run does to the collection.
    - [Calls]: accounting of the driver calls of a run: [CallsIn lo hi m]
      bounds the calls a piece of the script issues from every state and
      in every environment, with one rule per construct of [M] and a
      hint database [calls]; [Total] (never throws) for the fault-free
      case, where the calls of a sequence add up.

    ** What is modelled and how

    A JavaScript number that is a price is modelled as an integer number of
    cents ([Z]); a year as an integer ([Z]).  Averages are exact rationals
    [sum/count] rounded to cents with [round_half_even], as MongoDB's
    [$round] specifies; binary floating point is not modelled.  The
    collection is a [list book] in natural (insertion) order, which is the
    order [updateOne]/[deleteOne] scan and the order [$group] meets the
    documents.  MongoDB does not promise an order for [$group]'s output nor
    a stable [$sort]; the model fixes both (first-seen order, stable sort)
    and the theorems that matter (counts, sortedness, maxima) do not depend
    on that choice; where the spec relies on it, the manifest says so.
    Console output is modelled as the list of lines printed, stdout and
    stderr apart, with the texts of the source's template literals.  The
    network and the server are an environment: [fails n] says whether the
    [n]-th driver call throws ([MongoServerError]), [millis n] is its
    [executionTimeMillis]; the theorems about the run hold for every
    environment.  A failing call leaves the state as it was: a write that
    the server applies before the network fails is not modelled.  Every
    definition that models the code is structurally recursive (lists, the
    sort); the script has no loop other than [forEach] over an array.  The
    one function with fuel is the parser of index names in [Indexes],
    which belongs to the specification: its fuel is the length of the
    name, enough because each key consumes characters.

    ** Not modelled

    - The seed data: the books of [plp_bookstore.books] are inserted by
      no file of the repository; every theorem quantifies over the
      collection, and the concrete runs use a sample collection.
    - The driver and server internals (connection pool, wire protocol,
      storage, the plan cache and the trial run that picks among candidate
      indexes): the planner's choice is abstracted by [Planner.plan_ok],
      and the timings are an input of the environment ([millis]).
    - Binary floating point: prices are exact cents.
    - Documents of other shapes than [Books.book] (the collection is
      schemaless) and index options (unique, collation, explicit names in
      the script's own calls).

    ** Theorems

    - sorting ([Prelude]): the sort is a permutation, sorted and stable;
    - [Query]: a [find] returns exactly the matching documents, in
      collection order or sorted, and pagination returns a prefix;
    - [Writes]: [updateOne]/[deleteOne] change at most the first matching
      document, their counters say whether they did, and the Task 4
      message "No book found" is printed for a book that exists when its
      price already is 9.99;
    - [Aggregate]: the counts of the groups add up to the collection size,
      each group holds exactly the documents of its key, averages lie
      between the group's least and greatest price, the genre report is
      sorted by average price, the top author has the largest count, the
      decade start is [year - year rem 10] (not the floor the spec
      describes for negative years) and a decade keeps its first three
      books as samples;
    - [Indexes]: generated names parse back to their key patterns, so
      [createIndex] on a well-formed list never meets a conflict and keeps
      the list well formed; [createIndex] is idempotent; it throws when
      the key pattern exists under another name; an explained query
      examines between its result count and the collection size, exactly
      its result count when the index covers the filter;
    - [Script]: for every environment, [runAllQueries] ends in its
      [finally] block (closed, "Connection closed" printed last) and
      rejects only when closing fails; the collection it leaves is the
      initial one, or after Task 4, or after Tasks 4 and 5, in that order;
      with no failing call it returns normally after both writes; an error
      is printed on stderr before "Connection closed"; running Task 4 twice
      prints "No book found" for a book that exists; on well-formed indexes
      the index creation prints the generated names and never the
      "already exists" messages; and the performance comparison prints the
      [totalDocsExamined] of [Indexes] for the script's three queries;
    - [Planner]: on the script's indexes every planner that keeps the
      promise picks the same plan for the three explained queries, so the
      printed [totalDocsExamined] does not depend on the planner;
    - [Calls]: every run issues between 2 driver calls ([connect] and
      [close]) and 21, and a fault-free run issues all 21. *)

From stdpp Require Export base list sets strings pretty.
From Stdlib Require Export ZArith Lia Sorted Permutation.

Declare Scope mongo_scope.
Delimit Scope mongo_scope with mongo.
Open Scope Z_scope.

Create HintDb mongo.
Create Rewrite HintDb mongo_rw.

(** ** Stable insertion sort *)

Section Sort.
Context {A : Type} (le : A -> A -> bool).

(** [le x y = true] when [x] may come before [y]. *)
Fixpoint insert_sorted (x : A) (l : list A) : list A :=
  match l with
  | [] => [x]
  | y :: ys => if le x y then x :: y :: ys else y :: insert_sorted x ys
  end.

Fixpoint isort (l : list A) : list A :=
  match l with
  | [] => []
  | x :: xs => insert_sorted x (isort xs)
  end.

Lemma insert_sorted_perm x l : Permutation (insert_sorted x l) (x :: l).
Proof.
  induction l as [|y ys IH]; simpl; [done|].
  destruct (le x y); [done|].
  rewrite IH. constructor.
Qed.

Lemma isort_perm l : Permutation (isort l) l.
Proof.
  induction l as [|x xs IH]; simpl; [done|].
  rewrite insert_sorted_perm, IH. done.
Qed.

Lemma isort_length l : length (isort l) = length l.
Proof. apply Permutation_length, isort_perm. Qed.

Lemma isort_In x l : In x (isort l) <-> In x l.
Proof. split; apply Permutation_in; [|symmetry]; apply isort_perm. Qed.

Definition leR (x y : A) : Prop := le x y = true.

Context (le_total : forall x y, le x y = false -> le y x = true).

Lemma insert_sorted_sorted x l :
  Sorted leR l -> Sorted leR (insert_sorted x l).
Proof.
  induction 1 as [|y ys Hs IH Hhd]; simpl; [auto|].
  destruct (le x y) eqn:Hxy.
  - constructor; [by constructor|]. by constructor.
  - constructor; [done|].
    destruct ys as [|z zs]; simpl.
    + constructor. by apply le_total.
    + inversion Hhd; subst. destruct (le x z); constructor; [by apply le_total|done].
Qed.

Lemma isort_sorted l : Sorted leR (isort l).
Proof. induction l; simpl; auto using insert_sorted_sorted. Qed.

(** Stability: among elements that the order does not separate, [isort]
    keeps the input order. *)
Context (le_trans : forall x y z, le x y = true -> le y z = true -> le x z = true).

Definition equivb (x y : A) : bool := le x y && le y x.

Lemma insert_sorted_filter k x l :
  Sorted leR l -> equivb k x = true ->
  List.filter (equivb k) (insert_sorted x l) = x :: List.filter (equivb k) l.
Proof.
  intros Hs Hk. induction Hs as [|y ys Hs IH Hhd]; simpl; [by rewrite Hk|].
  destruct (le x y) eqn:Hxy; simpl; rewrite ?Hk; [done|].
  rewrite IH. destruct (equivb k y) eqn:Hky; [|done].
  unfold equivb in *. apply andb_prop in Hk as [Hk1 Hk2].
  apply andb_prop in Hky as [Hky1 Hky2].
  by rewrite (le_trans x k y Hk2 Hky1) in Hxy.
Qed.

Lemma insert_sorted_filter_out k x l :
  equivb k x = false ->
  List.filter (equivb k) (insert_sorted x l) = List.filter (equivb k) l.
Proof.
  intros Hk. induction l as [|y ys IH]; simpl; [by rewrite Hk|].
  destruct (le x y); simpl; rewrite ?Hk, ?IH; done.
Qed.

Lemma isort_stable k l :
  List.filter (equivb k) (isort l) = List.filter (equivb k) l.
Proof.
  induction l as [|x xs IH]; simpl; [done|].
  destruct (equivb k x) eqn:Hk.
  - rewrite insert_sorted_filter; [by rewrite IH|apply isort_sorted|done].
  - by rewrite insert_sorted_filter_out.
Qed.
End Sort.

#[export] Hint Resolve isort_perm isort_sorted : mongo.
#[export] Hint Rewrite @isort_length : mongo_rw.

(** ** Cursor [skip] and [limit] *)

(** MongoDB's [limit(n)]: a limit of 0 is no limit. *)
Definition apply_limit {A} (n : nat) (l : list A) : list A :=
  match n with
  | O => l
  | S _ => firstn n l
  end.

Definition apply_skip {A} (n : nat) (l : list A) : list A := skipn n l.

Lemma apply_limit_prefix {A} n (l : list A) : exists rest, l = apply_limit n l ++ rest.
Proof.
  destruct n; simpl; [exists []; by rewrite app_nil_r|].
  exists (skipn (S n) l). by rewrite firstn_skipn.
Qed.

Lemma apply_limit_length {A} n (l : list A) :
  length (apply_limit n l) = if n is O then length l else Nat.min n (length l).
Proof. destruct n; simpl; [done|]. by rewrite length_firstn. Qed.

(** ** First-match operations on a list (natural order) *)

Section FirstMatch.
Context {A : Type} (p : A -> bool).

Fixpoint find_first (l : list A) : option A :=
  match l with
  | [] => None
  | x :: xs => if p x then Some x else find_first xs
  end.

(** Replace the first element that satisfies [p] by [f] of it. *)
Fixpoint update_first (f : A -> A) (l : list A) : list A :=
  match l with
  | [] => []
  | x :: xs => if p x then f x :: xs else x :: update_first f xs
  end.

(** Remove the first element that satisfies [p]. *)
Fixpoint remove_first (l : list A) : list A :=
  match l with
  | [] => []
  | x :: xs => if p x then xs else x :: remove_first xs
  end.

Lemma find_first_None l : find_first l = None <-> forall x, In x l -> p x = false.
Proof.
  induction l as [|x xs IH]; simpl; [naive_solver|].
  destruct (p x) eqn:Hx; split.
  - done.
  - intros Hall. by rewrite (Hall x (or_introl eq_refl)) in Hx.
  - intros H y [<-|Hy]; [done|]. by apply IH.
  - intros Hall. apply IH. auto.
Qed.

Lemma find_first_Some l x :
  find_first l = Some x ->
  exists pre post, l = pre ++ x :: post /\ p x = true /\
    forall y, In y pre -> p y = false.
Proof.
  induction l as [|y ys IH]; simpl; [done|].
  destruct (p y) eqn:Hy.
  - intros [= <-]. exists [], ys. naive_solver.
  - intros H. destruct (IH H) as (pre & post & -> & Hx & Hpre).
    exists (y :: pre), post. split; [done|]. split; [done|].
    intros z [<-|Hz]; auto.
Qed.

Lemma update_first_None f l : find_first l = None -> update_first f l = l.
Proof.
  induction l as [|x xs IH]; simpl; [done|].
  destruct (p x); [done|]. intros H. by rewrite IH.
Qed.

Lemma update_first_split f pre x post :
  (forall y, In y pre -> p y = false) -> p x = true ->
  update_first f (pre ++ x :: post) = pre ++ f x :: post.
Proof.
  intros Hpre Hx. induction pre as [|y ys IH]; simpl; [by rewrite Hx|].
  rewrite (Hpre y (or_introl eq_refl)), IH; [done|]. intros z Hz. apply Hpre. by right.
Qed.

Lemma remove_first_None l : find_first l = None -> remove_first l = l.
Proof.
  induction l as [|x xs IH]; simpl; [done|].
  destruct (p x); [done|]. intros H. by rewrite IH.
Qed.

Lemma remove_first_split pre x post :
  (forall y, In y pre -> p y = false) -> p x = true ->
  remove_first (pre ++ x :: post) = pre ++ post.
Proof.
  intros Hpre Hx. induction pre as [|y ys IH]; simpl; [by rewrite Hx|].
  rewrite (Hpre y (or_introl eq_refl)), IH; [done|]. intros z Hz. apply Hpre. by right.
Qed.

Lemma update_first_length f l : length (update_first f l) = length l.
Proof. induction l as [|x xs IH]; simpl; [done|]. destruct (p x); simpl; auto. Qed.
End FirstMatch.

#[export] Hint Rewrite @update_first_length : mongo_rw.

(** ** Rounding half to even *)

(** [round_half_even n d] is the integer nearest to [n / d] ([d > 0]),
    ties going to the even neighbour: MongoDB's [$round]. *)
Definition round_half_even (n d : Z) : Z :=
  let q := n / d in
  let r := n mod d in
  match Z.compare (2 * r) d with
  | Lt => q
  | Gt => q + 1
  | Eq => if Z.even q then q else q + 1
  end.

(** [round_half_up] is the rounding the spec describes
    (half away from zero, on non-negative values). *)
Definition round_half_up (n d : Z) : Z :=
  let q := n / d in
  let r := n mod d in
  if Z.ltb (2 * r) d then q else q + 1.

Ltac zcase_compare :=
  match goal with
  | |- context [Z.compare ?a ?b] =>
      destruct (Z.compare_spec a b)
  end.

(** C21: [round_half_even n d] is the integer nearest to [n / d] and, on
    a tie, the even one: MongoDB's [$round] to whole cents. *)
Theorem round_half_even_correct n d :
  0 < d ->
  2 * Z.abs (n - round_half_even n d * d) <= d /\
  (2 * Z.abs (n - round_half_even n d * d) = d -> Z.even (round_half_even n d) = true).
Proof.
  intros Hd. unfold round_half_even.
  pose proof (Z.div_mod n d ltac:(lia)) as Hdm.
  pose proof (Z.mod_pos_bound n d Hd) as Hb.
  zcase_compare; [destruct (Z.even (n / d)) eqn:Ev|..]; (split; [lia|intros Ht]); try lia.
  - done.
  - rewrite Z.even_add, Ev. done.
Qed.

Lemma round_half_even_correct_witness :
  2 * Z.abs (2249 - round_half_even 2249 2 * 2) <= 2 /\
  (2 * Z.abs (2249 - round_half_even 2249 2 * 2) = 2 -> Z.even (round_half_even 2249 2) = true).
Proof. apply round_half_even_correct. lia. Defined.

Lemma round_half_even_between n d lo hi :
  0 < d -> lo * d <= n -> n <= hi * d -> lo <= round_half_even n d <= hi.
Proof.
  intros Hd Hlo Hhi. unfold round_half_even.
  pose proof (Z.div_mod n d ltac:(lia)) as Hdm.
  pose proof (Z.mod_pos_bound n d Hd) as Hb.
  assert (lo <= n / d) by (apply Z.div_le_lower_bound; lia).
  assert (n / d <= hi) by (apply Z.div_le_upper_bound; lia).
  zcase_compare; [destruct (Z.even (n / d))|..]; nia.
Qed.

(** ** Generic list facts *)

Lemma Sorted_weaken {A} (R R' : A -> A -> Prop) (l : list A) :
  (forall x y, R x y -> R' x y) -> Sorted R l -> Sorted R' l.
Proof.
  intros HRR'. induction 1 as [|x l Hs IH Hhd]; constructor; [done|].
  destruct Hhd; constructor; auto.
Qed.

Lemma isort_all_true {A} (le : A -> A -> bool) (l : list A) :
  (forall x y, le x y = true) -> isort le l = l.
Proof.
  intros Hle. induction l as [|x xs IH]; simpl; [done|].
  rewrite IH. destruct xs; simpl; [done|]. by rewrite Hle.
Qed.

Lemma find_first_split {A} (p : A -> bool) pre x post :
  (forall y, In y pre -> p y = false) -> p x = true ->
  find_first p (pre ++ x :: post) = Some x.
Proof.
  intros Hpre Hx. induction pre as [|y ys IH]; simpl; [by rewrite Hx|].
  rewrite (Hpre y (or_introl eq_refl)). apply IH. intros z Hz. apply Hpre. by right.
Qed.


Lemma find_first_In {A} (p : A -> bool) l x : find_first p l = Some x -> In x l /\ p x = true.
Proof.
  intros H. destruct (find_first_Some p l x H) as (pre & post & -> & Hx & _).
  split; [apply in_or_app; by right; left|done].
Qed.
Definition nsum (l : list nat) : nat := fold_right Nat.add 0%nat l.

Lemma nsum_perm l l' : Permutation l l' -> nsum l = nsum l'.
Proof. induction 1; simpl; lia. Qed.

Lemma Permutation_In_iff {A} (l l' : list A) x : Permutation l l' -> In x l <-> In x l'.
Proof. intros Hp. split; apply Permutation_in; [done|by symmetry]. Qed.

(** Goals on [/], [mod], [quot] and [rem] by a constant: turn each
    division into its defining equations, then linear arithmetic. *)
Ltac solve_zdiv := Z.to_euclidean_division_equations; lia.

Lemma Sorted_strict {A} (f : A -> Z) (l : list A) :
  Sorted (fun x y => f x <= f y) l -> NoDup (map f l) -> Sorted (fun x y => f x < f y) l.
Proof.
  induction 1 as [|x l Hs IH Hhd]; simpl; [constructor|].
  intros [Hx Hnd]%NoDup_cons. constructor; [auto|].
  destruct Hhd as [|y l' Hxy]; constructor. simpl in Hx.
  assert (f x <> f y) by (intros E; apply Hx; rewrite E; by left). lia.
Qed.
