(* ===== verification/Books.v ===== *)
(** * Books: the documents of [plp_bookstore.books] and BSON values

    The script reads the fields [title], [author], [genre],
    [published_year], [price], [in_stock] and [publisher] of the documents
    of the collection (src/queries.js, the filters and projections of
    lines 18-298), and writes [price] (line 62).  A document is the
    [Record] [book]; a field that a document may lack ([price],
    [publisher]) is an [option], and reading it gives BSON [null], which is
    what MongoDB's operators see for a missing field.  [value] holds the
    BSON values the script compares and prints, with MongoDB's comparison
    order across types (null < numbers < strings < booleans).

    The collection is schemaless and the source declares no document
    type: [book] is the shape of the documents the script itself inserts
    and reads.  It assumes a string title, author and genre, an integer
    year and a boolean [in_stock] in every document; documents with other
    fields or other types are outside the model. *)

From S2P Require Import Prelude.

(** ** Fields and values *)

Inductive field :=
| FTitle | FAuthor | FGenre | FPublishedYear | FPrice | FInStock | FPublisher.

#[export] Instance field_eq_dec : EqDecision field.
Proof. solve_decision. Defined.

(** The fields in document order (the order of the inserted documents). *)
Definition all_fields : list field :=
  [FTitle; FAuthor; FGenre; FPublishedYear; FPrice; FInStock; FPublisher].

(** A JavaScript number is an integer ([VInt], years, counts) or an amount
    of money in cents ([VMoney], prices: 9.99 is [VMoney 999]). *)
Inductive value :=
| VNull
| VInt (z : Z)
| VMoney (c : Z)
| VStr (s : string)
| VBool (b : bool).

#[export] Instance value_eq_dec : EqDecision value.
Proof. solve_decision. Defined.

(** ** Documents *)

Record book := mkBook {
  title : string;
  author : string;
  genre : string;
  published_year : Z;
  price : option Z;
  in_stock : bool;
  publisher : option string
}.

#[export] Instance book_eq_dec : EqDecision book.
Proof. solve_decision. Defined.

Definition opt_money (o : option Z) : value :=
  match o with Some c => VMoney c | None => VNull end.

Definition opt_str (o : option string) : value :=
  match o with Some s => VStr s | None => VNull end.

(** [get_field f b] is the value MongoDB sees at path [f] of [b]. *)
Definition get_field (f : field) (b : book) : value :=
  match f with
  | FTitle => VStr (title b)
  | FAuthor => VStr (author b)
  | FGenre => VStr (genre b)
  | FPublishedYear => VInt (published_year b)
  | FPrice => opt_money (price b)
  | FInStock => VBool (in_stock b)
  | FPublisher => opt_str (publisher b)
  end.

(** [$set] of one field ([updateOne] of line 62 sets [price]). *)
Definition set_price (c : Z) (b : book) : book :=
  {| title := title b; author := author b; genre := genre b;
     published_year := published_year b; price := Some c;
     in_stock := in_stock b; publisher := publisher b |}.

(** ** BSON comparison order *)

(** MongoDB compares values of different types by a fixed type order;
    all numeric types share one bracket and compare by value. *)
Definition type_rank (v : value) : Z :=
  match v with
  | VNull => 1
  | VInt _ | VMoney _ => 2
  | VStr _ => 3
  | VBool _ => 8
  end.

(** A number in cents, so that integers and money compare by value. *)
Definition num_cents (v : value) : option Z :=
  match v with
  | VInt z => Some (100 * z)
  | VMoney c => Some c
  | _ => None
  end.

Definition compare_value (v w : value) : comparison :=
  match Z.compare (type_rank v) (type_rank w) with
  | Eq =>
      match v, w with
      | VStr s, VStr t => String.compare s t
      | VBool a, VBool b => Bool.compare a b
      | _, _ =>
          match num_cents v, num_cents w with
          | Some a, Some b => Z.compare a b
          | _, _ => Eq
          end
      end
  | c => c
  end.

Lemma bool_compare_antisym a b : Bool.compare a b = CompOpp (Bool.compare b a).
Proof. by destruct a, b. Qed.

Lemma compare_value_antisym v w :
  compare_value w v = CompOpp (compare_value v w).
Proof.
  unfold compare_value. rewrite (Z.compare_antisym (type_rank v)).
  destruct (type_rank v ?= type_rank w) eqn:E; simpl; [|done|done].
  destruct v, w; simpl in *; try done.
  all: first
    [ rewrite String.compare_antisym; by destruct (String.compare _ _)
    | rewrite bool_compare_antisym; by destruct (Bool.compare _ _)
    | rewrite Z.compare_antisym; by destruct (Z.compare _ _) ].
Qed.

Lemma compare_self_opp (c : comparison) : c = CompOpp c -> c = Eq.
Proof. by destruct c. Qed.

Lemma string_compare_refl s : String.compare s s = Eq.
Proof.
  induction s as [|a s IH]; simpl; [done|].
  by rewrite (compare_self_opp _ (Ascii.compare_antisym a a)).
Qed.

Lemma compare_value_refl v : compare_value v v = Eq.
Proof.
  destruct v; unfold compare_value; simpl; rewrite ?Z.compare_refl; try done.
  - apply string_compare_refl.
  - by destruct b.
Qed.

Lemma compare_value_Str s t : compare_value (VStr s) (VStr t) = Eq <-> s = t.
Proof.
  unfold compare_value; simpl. split.
  - apply String.compare_eq_iff.
  - intros ->. apply (compare_value_refl (VStr t)).
Qed.

#[export] Hint Resolve compare_value_refl : mongo.

(** ** A sample collection

    A few documents shaped like the tutorial's [books] collection, used by
    the concrete runs of the other files. *)

Definition mk (t a g : string) (y : Z) (p : option Z) (s : bool) (u : option string) : book :=
  {| title := t; author := a; genre := g; published_year := y; price := p;
     in_stock := s; publisher := u |}.

Definition mockingbird := mk "To Kill a Mockingbird" "Harper Lee" "Fiction" 1960 (Some 1299) true None.
Definition nineteen84 := mk "1984" "George Orwell" "Dystopian" 1949 (Some 1099) true None.
Definition gatsby := mk "The Great Gatsby" "F. Scott Fitzgerald" "Fiction" 1925 (Some 999) true None.
Definition brave := mk "Brave New World" "Aldous Huxley" "Dystopian" 1932 (Some 1150) false None.
Definition animal_farm := mk "Animal Farm" "George Orwell" "Political Satire" 1945 (Some 850) false None.
Definition alchemist := mk "The Alchemist" "Paulo Coelho" "Fiction" 1988 (Some 1099) true (Some "HarperOne").
Definition moby := mk "Moby Dick" "Herman Melville" "Adventure" 1851 (Some 1250) false None.

Definition sample_books : list book :=
  [mockingbird; nineteen84; gatsby; brave; animal_farm; alchemist; moby].

(** ** Printing numbers as JavaScript does *)

(** [String(x)] of an amount [c] cents: no trailing zeros, no decimal
    point for whole amounts (9.99 is "9.99", 10.5 is "10.5", 10 is
    "10"). *)
Definition js_money (c : Z) : string :=
  let sign := if Z.ltb c 0 then "-" else "" in
  let a := Z.abs c in
  let units := a / 100 in
  let cents := a mod 100 in
  sign +:+ pretty units +:+
  (if Z.eqb cents 0 then ""
   else if Z.eqb (cents mod 10) 0 then "." +:+ pretty (cents / 10)
   else "." +:+ (if Z.ltb cents 10 then "0" else "") +:+ pretty cents).

(** The double-quote character, for the messages that quote a title. *)
Definition dquote : string := String (Ascii.ascii_of_nat 34) EmptyString.

Definition quoted (s : string) : string := dquote +:+ s +:+ dquote.

Lemma string_length_app s t : String.length (s +:+ t) = (String.length s + String.length t)%nat.
Proof. induction s; simpl; auto. Qed.

Lemma string_app_assoc s1 s2 s3 : (s1 +:+ s2) +:+ s3 = s1 +:+ (s2 +:+ s3).
Proof. induction s1 as [|a s1 IH]; [done|]. exact (f_equal (String a) IH). Qed.

Lemma string_app_nil_r s : s +:+ "" = s.
Proof. induction s as [|a s IH]; [done|]. exact (f_equal (String a) IH). Qed.

Lemma string_app_cancel_r s1 s2 t : s1 +:+ t = s2 +:+ t -> s1 = s2.
Proof.
  revert s2. induction s1 as [|a s1 IH]; intros [|b s2] H; simpl in *; try done.
  - apply (f_equal String.length) in H. simpl in H. rewrite !string_length_app in H. simpl in H. lia.
  - apply (f_equal String.length) in H. simpl in H. rewrite !string_length_app in H. simpl in H. lia.
  - injection H as -> H. f_equal. by apply IH.
Qed.
