(* ===== verification/Query.v ===== *)
(** * Query: [collection.find(filter, options)]

    The eight [find] calls of src/queries.js (Tasks 1-3, lines 18-48, and
    Advanced queries 1-5, lines 86-139).  A filter is a list of conditions
    on fields, all of which must hold (MongoDB's implicit [$and] over the
    keys of the filter object); a condition is an equality ([{f: v}]),
    [$gt] or [$gte].  Comparisons follow MongoDB: equality and order are
    BSON comparison ([Books.compare_value]), and [$gt]/[$gte] only match
    values of the same type bracket as the operand.  The options are the
    projection, the sort specification, [skip] and [limit]; the server
    filters, sorts, skips, limits and then projects, whatever order the
    options are written in. *)

From S2P Require Import Prelude Books.

(** ** Filters *)

Inductive cond :=
| CEq (f : field) (v : value)
| CGt (f : field) (v : value)
| CGte (f : field) (v : value).

Definition query := list cond.

Definition same_bracket (v w : value) : bool :=
  Z.eqb (type_rank v) (type_rank w).

Definition cond_holds (c : cond) (b : book) : bool :=
  match c with
  | CEq f v =>
      if compare_value (get_field f b) v is Eq then true else false
  | CGt f v =>
      same_bracket (get_field f b) v &&
      (if compare_value (get_field f b) v is Gt then true else false)
  | CGte f v =>
      same_bracket (get_field f b) v &&
      (if compare_value (get_field f b) v is Lt then false else true)
  end.

Definition matches (q : query) (b : book) : bool :=
  forallb (fun c => cond_holds c b) q.

(** ** Sort specifications *)

Inductive direction := Asc | Desc.

Definition sort_spec := list (field * direction).

(** The order of one sort key: [1] ascending, [-1] descending. *)
Definition dir_compare (d : direction) (v w : value) : comparison :=
  match d with
  | Asc => compare_value v w
  | Desc => compare_value w v
  end.

Fixpoint compare_by (s : sort_spec) (a b : book) : comparison :=
  match s with
  | [] => Eq
  | (f, d) :: s' =>
      let c := dir_compare d (get_field f a) (get_field f b) in
      match c with
      | Eq => compare_by s' a b
      | _ => c
      end
  end.

(** [a] may precede [b] in the sorted cursor. *)
Definition sort_le (s : sort_spec) (a b : book) : bool :=
  if compare_by s a b is Gt then false else true.

(** ** Projections *)

(** A returned document: the fields it has, in document order.  [_id] is
    excluded by every projection of the script and is not modelled. *)
Definition doc := list (field * value).

Definition field_present (f : field) (b : book) : bool :=
  match f with
  | FPrice => bool_decide (is_Some (price b))
  | FPublisher => bool_decide (is_Some (publisher b))
  | _ => true
  end.

(** [None] is "no projection": every field the document has. *)
Definition project (p : option (list field)) (b : book) : doc :=
  map (fun f => (f, get_field f b))
    (List.filter (fun f => field_present f b &&
       match p with
       | None => true
       | Some fs => bool_decide (f ∈ fs)
       end) all_fields).

(** ** [find] *)

Record find_options := {
  projection : option (list field);
  sort_by : sort_spec;
  skip : nat;
  limit : nat
}.

Definition default_options : find_options :=
  {| projection := None; sort_by := []; skip := 0; limit := 0 |}.

(** The documents the cursor yields, before projection. *)
Definition find_cursor (q : query) (o : find_options) (c : list book) : list book :=
  apply_limit (limit o)
    (apply_skip (skip o)
       (isort (sort_le (sort_by o)) (List.filter (matches q) c))).

Definition find (q : query) (o : find_options) (c : list book) : list doc :=
  map (project (projection o)) (find_cursor q o c).

(** ** The script's queries *)

(** Task 1, lines 18 and 24. *)
Definition fictionBooks : query := [CEq FGenre (VStr "Fiction")].
Definition dystopianBooks : query := [CEq FGenre (VStr "Dystopian")].

(** Task 2, lines 34-36. *)
Definition year : Z := 1950.
Definition recentBooks : query := [CGt FPublishedYear (VInt year)].

(** Task 3, lines 46-48. *)
Definition authorName : string := "George Orwell".
Definition authorBooks : query := [CEq FAuthor (VStr authorName)].

(** Advanced query 1, lines 86-91. *)
Definition inStockRecent : query :=
  [CEq FInStock (VBool true); CGt FPublishedYear (VInt 1950)].
Definition inStockRecent_options : find_options :=
  {| projection := Some [FTitle; FAuthor; FPrice; FPublishedYear];
     sort_by := []; skip := 0; limit := 0 |}.

(** Advanced query 2, lines 100-102. *)
Definition allBooksProjection_options : find_options :=
  {| projection := Some [FTitle; FAuthor]; sort_by := []; skip := 0; limit := 0 |}.

(** Advanced query 3, lines 111-114. *)
Definition sortedByPrice_options : find_options :=
  {| projection := Some [FTitle; FAuthor; FPrice];
     sort_by := [(FPrice, Desc)]; skip := 0; limit := 0 |}.

(** Advanced query 4, lines 123-126. *)
Definition sortedByYear_options : find_options :=
  {| projection := Some [FTitle; FAuthor; FPublishedYear];
     sort_by := [(FPublishedYear, Asc)]; skip := 0; limit := 0 |}.

(** Advanced query 5, lines 135-139. *)
Definition firstFiveBooks_options : find_options :=
  {| projection := Some [FTitle; FAuthor]; sort_by := []; skip := 0; limit := 5 |}.

(** ** Lemmas *)

Lemma compare_by_antisym s a b : compare_by s b a = CompOpp (compare_by s a b).
Proof.
  induction s as [|[f d] s IH]; simpl; [done|].
  destruct d; unfold dir_compare; rewrite (compare_value_antisym (get_field f a));
    destruct (compare_value (get_field f a) (get_field f b)); simpl; auto.
Qed.

Lemma sort_le_total s a b : sort_le s a b = false -> sort_le s b a = true.
Proof.
  unfold sort_le. rewrite (compare_by_antisym s a b).
  by destruct (compare_by s a b).
Qed.

Lemma find_cursor_unsorted q o c :
  sort_by o = [] -> skip o = 0%nat -> limit o = 0%nat ->
  find_cursor q o c = List.filter (matches q) c.
Proof.
  intros Hs Hk Hl. unfold find_cursor. rewrite Hs, Hk, Hl. simpl.
  by apply isort_all_true.
Qed.

Lemma find_cursor_sorted q o c :
  skip o = 0%nat -> limit o = 0%nat ->
  Permutation (find_cursor q o c) (List.filter (matches q) c) /\
  Sorted (leR (sort_le (sort_by o))) (find_cursor q o c).
Proof.
  intros Hk Hl. unfold find_cursor. rewrite Hk, Hl. simpl.
  split; [apply isort_perm|apply isort_sorted, sort_le_total].
Qed.

Lemma cond_eq_string f s b :
  cond_holds (CEq f (VStr s)) b = bool_decide (get_field f b = VStr s).
Proof.
  simpl. case_bool_decide as H.
  - rewrite H. by rewrite compare_value_refl.
  - destruct (get_field f b) eqn:E; try done.
    destruct (compare_value (VStr s0) (VStr s)) eqn:Ec; try done.
    apply compare_value_Str in Ec. congruence.
Qed.

Lemma cond_gt_year y b :
  cond_holds (CGt FPublishedYear (VInt y)) b = Z.ltb y (published_year b).
Proof.
  simpl. unfold compare_value. simpl.
  destruct (Z.ltb_spec y (published_year b));
    destruct (Z.compare_spec (100 * published_year b) (100 * y)); done || lia.
Qed.

Lemma cond_in_stock b : cond_holds (CEq FInStock (VBool true)) b = in_stock b.
Proof. by destruct b as [? ? ? ? ? []]. Qed.

#[export] Hint Rewrite cond_eq_string cond_gt_year cond_in_stock : mongo_rw.

(** An order on optional prices: a missing price (BSON null) is below
    every number. *)
Definition opt_le (x y : option Z) : Prop :=
  match x, y with
  | None, _ => True
  | Some _, None => False
  | Some a, Some b => a <= b
  end.

(** Descending on an optional price puts the larger price first. *)
Lemma desc_money_le x y :
  (if dir_compare Desc (opt_money x) (opt_money y) is Gt then false else true) = true ->
  opt_le y x.
Proof.
  destruct x, y; unfold dir_compare, compare_value; simpl; try done.
  destruct (Z.compare_spec z0 z); done || lia.
Qed.

Lemma sort_le_price_desc a b :
  leR (sort_le [(FPrice, Desc)]) a b -> opt_le (price b) (price a).
Proof.
  unfold leR, sort_le. cbn [compare_by get_field]. intros H. apply desc_money_le.
  by destruct (dir_compare Desc (opt_money (price a)) (opt_money (price b))).
Qed.

Lemma sort_le_year_asc a b :
  leR (sort_le [(FPublishedYear, Asc)]) a b -> published_year a <= published_year b.
Proof.
  unfold leR, sort_le; simpl. unfold compare_value; simpl.
  destruct (Z.compare_spec (100 * published_year a) (100 * published_year b)); done || lia.
Qed.

Lemma project_In p b f v :
  In (f, v) (project p b) <->
  field_present f b = true /\
  (match p with None => True | Some fs => f ∈ fs end) /\ v = get_field f b.
Proof.
  unfold project. rewrite in_map_iff. split.
  - intros (g & [= -> ->] & Hg). apply filter_In in Hg as [_ Hg].
    apply andb_prop in Hg as [Hp Hs]. destruct p; [by case_bool_decide|done].
  - intros (Hp & Hs & ->). exists f. split; [done|]. apply filter_In. split.
    + destruct f; simpl; tauto.
    + rewrite Hp. destruct p; [by case_bool_decide|done].
Qed.

Lemma matches_single c b : matches [c] b = cond_holds c b.
Proof. unfold matches. simpl. by rewrite andb_true_r. Qed.

Lemma find_cursor_eq_string f s c :
  find_cursor [CEq f (VStr s)] default_options c =
  List.filter (fun b => bool_decide (get_field f b = VStr s)) c.
Proof.
  rewrite find_cursor_unsorted by done. apply filter_ext. intros b.
  by rewrite matches_single, cond_eq_string.
Qed.

(** ** Theorems *)

(** C26: Task 1 (lines 18 and 24) returns exactly the books of the genre,
    in collection order: the equality filter on [genre] is string
    equality. *)
Theorem genre_query_exact (g : string) c :
  find_cursor [CEq FGenre (VStr g)] default_options c =
  List.filter (fun b => bool_decide (genre b = g)) c.
Proof.
  rewrite find_cursor_eq_string. apply filter_ext. intros b.
  apply bool_decide_ext. simpl. split; [by intros [=]|by intros ->].
Qed.

(** Task 2 (line 36) returns exactly the books published strictly
    after 1950, in collection order. *)
Theorem recentBooks_exact c :
  find_cursor recentBooks default_options c =
  List.filter (fun b => Z.ltb 1950 (published_year b)) c.
Proof.
  rewrite find_cursor_unsorted by done. apply filter_ext. intros b.
  unfold recentBooks, year. by rewrite matches_single, cond_gt_year.
Qed.

(** C27: Advanced query 1 (lines 86-91) returns the books that are in
    stock and published after 1950, in collection order, each projected
    to title, author, published year and (when it has one) price. *)
Theorem inStockRecent_exact c :
  find_cursor inStockRecent inStockRecent_options c =
  List.filter (fun b => in_stock b && Z.ltb 1950 (published_year b)) c /\
  forall b, project (projection inStockRecent_options) b =
    [(FTitle, VStr (title b)); (FAuthor, VStr (author b));
     (FPublishedYear, VInt (published_year b))] ++
    (if price b is Some p then [(FPrice, VMoney p)] else []).
Proof.
  split.
  - rewrite find_cursor_unsorted by done. apply filter_ext. intros b.
    unfold matches, inStockRecent. cbn [forallb].
    by rewrite cond_in_stock, cond_gt_year, andb_true_r.
  - intros b. unfold project. simpl.
    destruct (price b) eqn:E; simpl; rewrite andb_false_r; simpl; by rewrite ?E.
Qed.

(** C28: Advanced query 3 (lines 111-114) yields every book once, by
    price from the highest down, the books without a price last. *)
Theorem sortedByPrice_sorted c :
  Permutation (find_cursor [] sortedByPrice_options c) c /\
  Sorted (fun a b => opt_le (price b) (price a)) (find_cursor [] sortedByPrice_options c).
Proof.
  destruct (find_cursor_sorted [] sortedByPrice_options c) as [Hp Hs]; [done..|].
  rewrite filter_true in Hp. split; [done|].
  eapply Sorted_weaken; [|exact Hs]. apply sort_le_price_desc.
Qed.

(** Advanced query 4 (lines 123-126) yields every book once, by
    publication year from the oldest. *)
Theorem sortedByYear_sorted c :
  Permutation (find_cursor [] sortedByYear_options c) c /\
  Sorted (fun a b => published_year a <= published_year b)
    (find_cursor [] sortedByYear_options c).
Proof.
  destruct (find_cursor_sorted [] sortedByYear_options c) as [Hp Hs]; [done..|].
  rewrite filter_true in Hp. split; [done|].
  eapply Sorted_weaken; [|exact Hs]. apply sort_le_year_asc.
Qed.

(** C29: Advanced query 5 (lines 135-139) is the first page: the first
    five books in collection order, projected to title and author. *)
Theorem firstFiveBooks_page c :
  find [] firstFiveBooks_options c =
  map (fun b => [(FTitle, VStr (title b)); (FAuthor, VStr (author b))]) (firstn 5 c).
Proof.
  unfold find, find_cursor. simpl. rewrite filter_true, isort_all_true; [|done].
  apply map_ext. intros b. unfold project. simpl. by rewrite !andb_false_r.
Qed.

Example fiction_run :
  map title (find_cursor fictionBooks default_options sample_books) =
  ["To Kill a Mockingbird"; "The Great Gatsby"; "The Alchemist"].
Proof. vm_compute. reflexivity. Qed.

Example sortedByPrice_run :
  map title (find_cursor [] sortedByPrice_options sample_books) =
  ["To Kill a Mockingbird"; "Moby Dick"; "Brave New World"; "1984";
   "The Alchemist"; "The Great Gatsby"; "Animal Farm"].
Proof. vm_compute. reflexivity. Qed.
