(* ===== verification/Writes.v ===== *)
(** * Writes: [updateOne] with [$set] and [deleteOne] (Tasks 4 and 5)

    src/queries.js lines 54-82.  The collection is a list in natural
    order; [updateOne] and [deleteOne] act on the first document that
    matches the filter.  [updateOne] reports [matchedCount] and
    [modifiedCount]; an update that sets a field to the value it already
    has matches the document but does not modify it (MongoDB counts it in
    [matchedCount] only).  [deleteOne] reports [deletedCount].  Tasks 4
    and 5 choose their message from [modifiedCount] and [deletedCount]. *)

From S2P Require Import Prelude Books Query.

(** ** [updateOne] *)

Record update_result := {
  matchedCount : nat;
  modifiedCount : nat
}.

(** [updateOne(q, { $set: { price: p } })]. *)
Definition updateOne (q : query) (p : Z) (coll : list book) : update_result * list book :=
  match find_first (matches q) coll with
  | None => ({| matchedCount := 0; modifiedCount := 0 |}, coll)
  | Some b =>
      if decide (price b = Some p)
      then ({| matchedCount := 1; modifiedCount := 0 |}, coll)
      else ({| matchedCount := 1; modifiedCount := 1 |},
            update_first (matches q) (set_price p) coll)
  end.

(** ** [deleteOne] *)

Record delete_result := { deletedCount : nat }.

Definition deleteOne (q : query) (coll : list book) : delete_result * list book :=
  match find_first (matches q) coll with
  | None => ({| deletedCount := 0 |}, coll)
  | Some _ => ({| deletedCount := 1 |}, remove_first (matches q) coll)
  end.

(** ** Task 4, lines 58-68 *)

Definition bookTitle : string := "1984".
Definition newPrice : Z := 999.

Definition updated_msg : string :=
  "Updated the price of " +:+ quoted bookTitle +:+ " to $" +:+ js_money newPrice.
Definition not_found_msg (t : string) : string :=
  " No book found with the title " +:+ quoted t.

Definition task4 (coll : list book) : string * list book :=
  let '(r, coll') := updateOne [CEq FTitle (VStr bookTitle)] newPrice coll in
  (if Nat.ltb 0 (modifiedCount r) then updated_msg else not_found_msg bookTitle, coll').

(** ** Task 5, lines 75-81 *)

Definition deleteTitle : string := "The Great Gatsby".

Definition deleted_msg : string :=
  " Deleted the book titled " +:+ quoted deleteTitle.

Definition task5 (coll : list book) : string * list book :=
  let '(r, coll') := deleteOne [CEq FTitle (VStr deleteTitle)] coll in
  (if Nat.ltb 0 (deletedCount r) then deleted_msg else not_found_msg deleteTitle, coll').

(** ** Lemmas *)

Lemma get_field_set_price f p b : f <> FPrice -> get_field f (set_price p b) = get_field f b.
Proof. by destruct f. Qed.

Lemma matches_title t b : matches [CEq FTitle (VStr t)] b = bool_decide (title b = t).
Proof.
  rewrite matches_single, cond_eq_string. apply bool_decide_ext.
  simpl. split; [by intros [=]|by intros ->].
Qed.

Lemma matches_title_set_price t p b :
  matches [CEq FTitle (VStr t)] (set_price p b) = matches [CEq FTitle (VStr t)] b.
Proof. by rewrite !matches_title. Qed.

(** The fields that [updateOne] of the script never writes. *)
Definition unpriced (b : book) :=
  (title b, author b, genre b, published_year b, in_stock b, publisher b).

Lemma unpriced_update_first q p coll :
  map unpriced (update_first (matches q) (set_price p) coll) = map unpriced coll.
Proof.
  induction coll as [|x xs IH]; simpl; [done|].
  destruct (matches q x); simpl; [done|]. by rewrite IH.
Qed.

(** Task 4 reports the book missing when its first match already has
    the new price. *)
Lemma task4_found_priced coll b :
  find_first (matches [CEq FTitle (VStr bookTitle)]) coll = Some b ->
  price b = Some newPrice ->
  fst (task4 coll) = not_found_msg bookTitle.
Proof. intros E Hp. unfold task4, updateOne. rewrite E. by rewrite decide_True. Qed.

(** ** Theorems *)

(** C1: [updateOne] acts on the first matching document only: when it
    already has the price, the collection is unchanged and the result
    says matched but not modified; otherwise its price is set and the
    result says modified. *)
Theorem updateOne_first_match q p pre b post :
  (forall x, In x pre -> matches q x = false) -> matches q b = true ->
  updateOne q p (pre ++ b :: post) =
  if decide (price b = Some p)
  then ({| matchedCount := 1; modifiedCount := 0 |}, pre ++ b :: post)
  else ({| matchedCount := 1; modifiedCount := 1 |}, pre ++ set_price p b :: post).
Proof.
  intros Hpre Hb. unfold updateOne. rewrite find_first_split by done.
  destruct (decide _); [done|]. by rewrite update_first_split.
Qed.

(** C2: [updateOne] with no matching document matches nothing, modifies
    nothing and leaves the collection as it is. *)
Theorem updateOne_no_match q p coll :
  (forall x, In x coll -> matches q x = false) ->
  updateOne q p coll = ({| matchedCount := 0; modifiedCount := 0 |}, coll).
Proof. intros H. unfold updateOne. by rewrite (proj2 (find_first_None _ coll) H). Qed.

(** C7: [updateOne]'s [$set] on [price] changes no other field and no
    document count: the collection after the update has the same
    documents up to their prices, in the same order. *)
Theorem updateOne_only_price q p coll :
  map unpriced (snd (updateOne q p coll)) = map unpriced coll.
Proof.
  unfold updateOne. destruct (find_first _ _); [|done].
  destruct (decide _); [done|]. apply unpriced_update_first.
Qed.

(** C3: Task 4 prints "No book found with the title "1984"" exactly when
    no book has that title or the first one already costs 9.99: a book
    that exists is reported missing when its price is unchanged. *)
Theorem task4_not_found_iff coll :
  fst (task4 coll) = not_found_msg bookTitle <->
  (forall b, In b coll -> title b <> bookTitle) \/
  (exists b, find_first (matches [CEq FTitle (VStr bookTitle)]) coll = Some b /\
             price b = Some newPrice).
Proof.
  unfold task4, updateOne.
  destruct (find_first _ coll) as [b|] eqn:E.
  - destruct (find_first_In _ _ _ E) as [Hin Hm].
    rewrite matches_title in Hm. apply bool_decide_eq_true in Hm.
    destruct (decide _) as [Hp|Hp]; simpl.
    + split; [intros _; right; by exists b|done].
    + split; [by intros [=]|].
      intros [Hall|(b' & [= <-] & Hb')]; [by destruct (Hall b Hin)|done].
  - simpl. split; [intros _; left|done].
    intros b Hb Ht. rewrite find_first_None in E. specialize (E b Hb).
    rewrite matches_title in E. by apply bool_decide_eq_false in E.
Qed.

(** Task 4 twice: the second run finds the book at 9.99. *)
Lemma task4_twice coll :
  (exists b, In b coll /\ title b = bookTitle) ->
  fst (task4 (snd (task4 coll))) = not_found_msg bookTitle.
Proof.
  intros (b0 & Hin & Ht).
  assert (Hfirst : exists b, find_first (matches [CEq FTitle (VStr bookTitle)]) coll = Some b).
  { destruct (find_first _ coll) eqn:E; [by eexists|].
    rewrite find_first_None in E. specialize (E b0 Hin).
    rewrite matches_title in E. by apply bool_decide_eq_false in E. }
  destruct Hfirst as [b Hb].
  destruct (find_first_Some _ _ _ Hb) as (pre & post & -> & Hm & Hpre).
  unfold task4 at 2, updateOne. rewrite find_first_split by done.
  destruct (decide (price b = Some newPrice)) as [Hp|Hp]; simpl.
  - apply (task4_found_priced _ b); [by rewrite find_first_split|done].
  - rewrite update_first_split by done.
    apply (task4_found_priced _ (set_price newPrice b)); [|done].
    rewrite find_first_split; [done|done|]. by rewrite matches_title_set_price.
Qed.

(** C4: running Task 4 a second time on a collection that has a book
    titled "1984" always prints "No book found", although the book is
    there: the first run set its price to 9.99. *)
Theorem task4_rerun_not_found coll :
  (exists b, In b coll /\ title b = bookTitle) ->
  fst (task4 (snd (task4 coll))) = not_found_msg bookTitle.
Proof. apply task4_twice. Qed.

Lemma remove_first_filter {A} (p : A -> bool) l :
  List.filter (fun x => negb (p x)) (remove_first p l) = List.filter (fun x => negb (p x)) l.
Proof.
  induction l as [|x xs IH]; simpl; [done|].
  destruct (p x) eqn:E; simpl; rewrite ?E; simpl; [done|]. by rewrite IH.
Qed.

Lemma remove_first_filter_length {A} (p : A -> bool) l x :
  find_first p l = Some x ->
  S (length (List.filter p (remove_first p l))) = length (List.filter p l).
Proof.
  induction l as [|y ys IH]; simpl; [done|].
  destruct (p y) eqn:E; simpl; rewrite ?E; simpl; [done|]. auto.
Qed.

(** C5: [deleteOne] removes the first matching document and only that
    one, and reports it. *)
Theorem deleteOne_first_match q pre b post :
  (forall x, In x pre -> matches q x = false) -> matches q b = true ->
  deleteOne q (pre ++ b :: post) = ({| deletedCount := 1 |}, pre ++ post).
Proof.
  intros Hpre Hb. unfold deleteOne. rewrite find_first_split by done.
  by rewrite remove_first_split.
Qed.

(** C6: [deleteOne] lowers the number of matching documents by
    [deletedCount], which is 1 exactly when some document matches, and
    keeps every non-matching document in its order. *)
Theorem deleteOne_counts q coll :
  let '(r, coll') := deleteOne q coll in
  (length (List.filter (matches q) coll') + deletedCount r =
    length (List.filter (matches q) coll))%nat /\
  (deletedCount r = 1%nat <-> exists b, In b coll /\ matches q b = true) /\
  List.filter (fun b => negb (matches q b)) coll' =
    List.filter (fun b => negb (matches q b)) coll.
Proof.
  unfold deleteOne. destruct (find_first (matches q) coll) as [b|] eqn:E; simpl.
  - split; [pose proof (remove_first_filter_length _ _ b E); lia|].
    split; [|apply remove_first_filter].
    split; [intros _; exists b; by apply find_first_In|done].
  - split; [lia|]. split; [|done]. split; [done|].
    intros (b & Hb & Hm). rewrite find_first_None in E. by rewrite (E b Hb) in Hm.
Qed.

(** ** Witnesses and runs *)

Lemma updateOne_first_match_witness :
  updateOne [CEq FTitle (VStr bookTitle)] newPrice ([mockingbird] ++ nineteen84 :: [gatsby]) =
  ({| matchedCount := 1; modifiedCount := 1 |},
   [mockingbird] ++ set_price newPrice nineteen84 :: [gatsby]).
Proof.
  rewrite (updateOne_first_match _ _ [mockingbird] nineteen84 [gatsby]).
  - reflexivity.
  - intros x [<-|[]]. reflexivity.
  - reflexivity.
Defined.

Lemma updateOne_no_match_witness :
  updateOne [CEq FTitle (VStr bookTitle)] newPrice [gatsby; brave] =
  ({| matchedCount := 0; modifiedCount := 0 |}, [gatsby; brave]).
Proof. apply updateOne_no_match. intros x [<-|[<-|[]]]; reflexivity. Defined.

Lemma task4_rerun_not_found_witness :
  fst (task4 (snd (task4 sample_books))) = not_found_msg bookTitle.
Proof.
  apply task4_rerun_not_found. exists nineteen84. split; [|reflexivity].
  simpl. tauto.
Defined.

Lemma deleteOne_first_match_witness :
  deleteOne [CEq FTitle (VStr deleteTitle)] ([mockingbird; nineteen84] ++ gatsby :: [brave]) =
  ({| deletedCount := 1 |}, [mockingbird; nineteen84] ++ [brave]).
Proof.
  apply deleteOne_first_match.
  - intros x [<-|[<-|[]]]; reflexivity.
  - reflexivity.
Defined.

Example task4_first_run : fst (task4 sample_books) = updated_msg.
Proof. vm_compute. reflexivity. Qed.

Example updated_msg_text :
  updated_msg = "Updated the price of " +:+ quoted "1984" +:+ " to $9.99".
Proof. vm_compute. reflexivity. Qed.

Example task5_runs :
  fst (task5 sample_books) = deleted_msg /\
  fst (task5 (snd (task5 sample_books))) = not_found_msg deleteTitle.
Proof. vm_compute. split; reflexivity. Qed.
