(* ===== verification/Aggregate.v ===== *)
(** * Aggregate: [$group] and the three pipelines of the script

    src/queries.js lines 146-253.  [$group] is modelled by [group_by]:
    one pass over the documents in collection order that adds each
    document to the group of its key, creating the group the first time
    the key is met ([add_to_groups]).  Its reference semantics is
    [group_spec]: the distinct keys in order of first appearance, each
    with the documents of that key; [group_by_spec] proves them equal.
    An accumulator is a function of the group's members in order:
    [$sum: 1] is the length, [$avg] the mean of the members' numeric
    prices (members without a price are skipped; no price at all gives
    null), [$first] the first member, [$push] the list of members.  Each
    pipeline is the composition of its stages, one definition per stage,
    as the code writes them. *)

From S2P Require Import Prelude Books Query.

(** ** [$group] *)

Section GroupBy.
Context {A K : Type} `{EqDecision K} (key : A -> K).

Fixpoint add_to_groups (k : K) (x : A) (gs : list (K * list A)) : list (K * list A) :=
  match gs with
  | [] => [(k, [x])]
  | (k', xs) :: gs' =>
      if decide (k = k') then (k', xs ++ [x]) :: gs'
      else (k', xs) :: add_to_groups k x gs'
  end.

Definition group_by (l : list A) : list (K * list A) :=
  fold_left (fun gs x => add_to_groups (key x) x gs) l [].

(** The reference semantics. *)
Definition add_key (ks : list K) (k : K) : list K :=
  if decide (k ∈ ks) then ks else ks ++ [k].

Definition first_seen_keys (l : list A) : list K := fold_left add_key (map key l) [].

Definition members (l : list A) (k : K) : list A :=
  List.filter (fun x => bool_decide (key x = k)) l.

Definition group_spec (l : list A) : list (K * list A) :=
  map (fun k => (k, members l k)) (first_seen_keys l).

(** *** Lemmas *)

Lemma first_seen_keys_snoc l x :
  first_seen_keys (l ++ [x]) = add_key (first_seen_keys l) (key x).
Proof. unfold first_seen_keys. by rewrite map_app, fold_left_app. Qed.

Lemma add_key_elem ks k k' : k' ∈ add_key ks k <-> k' ∈ ks \/ k' = k.
Proof.
  unfold add_key. destruct (decide (k ∈ ks)).
  - split; [by left|]. intros [?| ->]; done.
  - rewrite elem_of_app, list_elem_of_singleton. done.
Qed.

Lemma add_key_cons_ne ks k k' : k <> k' -> add_key (k' :: ks) k = k' :: add_key ks k.
Proof.
  intros Hne. unfold add_key.
  destruct (decide (k ∈ ks)); [rewrite decide_True by set_solver|rewrite decide_False by set_solver];
    done.
Qed.

Lemma add_key_NoDup ks k : NoDup ks -> NoDup (add_key ks k).
Proof.
  unfold add_key. destruct (decide (k ∈ ks)); [done|].
  intros Hnd. apply NoDup_app. split; [done|]. split; [|apply NoDup_singleton].
  intros y Hy ->%list_elem_of_singleton. done.
Qed.

Lemma first_seen_keys_elem l k : k ∈ first_seen_keys l <-> exists x, x ∈ l /\ key x = k.
Proof.
  induction l as [|x l IH] using rev_ind.
  - unfold first_seen_keys. simpl. split; [by intros ?%elem_of_nil|].
    by intros (x & ?%elem_of_nil & _).
  - rewrite first_seen_keys_snoc, add_key_elem, IH.
    setoid_rewrite elem_of_app. setoid_rewrite list_elem_of_singleton. naive_solver.
Qed.

Lemma first_seen_keys_NoDup l : NoDup (first_seen_keys l).
Proof.
  induction l as [|x l IH] using rev_ind; [constructor|].
  rewrite first_seen_keys_snoc. by apply add_key_NoDup.
Qed.

Lemma members_snoc l x k :
  members (l ++ [x]) k = members l k ++ (if bool_decide (key x = k) then [x] else []).
Proof. unfold members. rewrite List.filter_app. simpl. by destruct (bool_decide _). Qed.

Lemma members_nil l k : k ∉ first_seen_keys l -> members l k = [].
Proof.
  intros Hk. unfold members.
  destruct (List.filter _ l) as [|x xs] eqn:E; [done|].
  assert (Hx : In x (List.filter (fun x => bool_decide (key x = k)) l)) by (rewrite E; by left).
  apply filter_In in Hx as [Hx Hkx%bool_decide_eq_true].
  destruct Hk. apply first_seen_keys_elem. exists x. by rewrite list_elem_of_In.
Qed.

Lemma add_to_groups_spec l x ks :
  NoDup ks -> (key x ∉ ks -> members l (key x) = []) ->
  add_to_groups (key x) x (map (fun k => (k, members l k)) ks) =
  map (fun k => (k, members (l ++ [x]) k)) (add_key ks (key x)).
Proof.
  intros Hnd Hnil. induction ks as [|k ks IH]; simpl.
  - unfold add_key. simpl. rewrite members_snoc, Hnil by set_solver.
    by rewrite bool_decide_eq_true_2.
  - apply NoDup_cons in Hnd as [Hk Hnd].
    unfold add_key. destruct (decide (key x = k)) as [<-|Hne].
    + rewrite decide_True by set_solver. simpl. f_equal.
      * by rewrite members_snoc, bool_decide_eq_true_2.
      * apply map_ext_in. intros k' Hk'%list_elem_of_In.
        rewrite members_snoc, bool_decide_eq_false_2, app_nil_r; [done|].
        intros <-. done.
    + fold (add_key (k :: ks) (key x)). rewrite add_key_cons_ne by done. simpl.
      rewrite members_snoc, bool_decide_eq_false_2, app_nil_r by done.
      rewrite IH by set_solver. done.
Qed.

Lemma group_spec_snoc l x : add_to_groups (key x) x (group_spec l) = group_spec (l ++ [x]).
Proof.
  unfold group_spec. rewrite first_seen_keys_snoc.
  apply add_to_groups_spec; [apply first_seen_keys_NoDup|apply members_nil].
Qed.

(** [$group] computed by one accumulating pass is the reference
    grouping. *)
Lemma group_by_spec l : group_by l = group_spec l.
Proof.
  unfold group_by. change [] with (group_spec []).
  change (group_spec l) with (group_spec ([] ++ l)).
  generalize (@nil A) as p. induction l as [|x l IH]; intros p; simpl.
  - by rewrite app_nil_r.
  - rewrite group_spec_snoc, IH. by rewrite <- app_assoc.
Qed.

Definition group_total (gs : list (K * list A)) : nat :=
  fold_right (fun g n => length (snd g) + n)%nat 0%nat gs.

Lemma add_to_groups_total k x gs : group_total (add_to_groups k x gs) = S (group_total gs).
Proof.
  induction gs as [|[k' xs] gs IH]; simpl; [done|].
  destruct (decide (k = k')); simpl; rewrite ?length_app, ?IH; simpl; lia.
Qed.

Lemma group_by_total l : group_total (group_by l) = length l.
Proof.
  unfold group_by. rewrite <- (Nat.add_0_r (length l)).
  change 0%nat with (group_total []).
  generalize (@nil (K * list A)). induction l as [|x l IH]; intros gs; simpl; [done|].
  rewrite IH, add_to_groups_total. lia.
Qed.

Lemma group_by_In l k xs :
  In (k, xs) (group_by l) <-> k ∈ first_seen_keys l /\ xs = members l k.
Proof.
  rewrite group_by_spec. unfold group_spec. rewrite in_map_iff. split.
  - intros (k' & [= -> ->] & Hk). split; [by apply list_elem_of_In|done].
  - intros [Hk ->]. exists k. split; [done|]. by apply list_elem_of_In.
Qed.

Lemma group_by_keys l : map fst (group_by l) = first_seen_keys l.
Proof.
  rewrite group_by_spec. unfold group_spec. rewrite map_map. simpl. apply map_id.
Qed.

Lemma members_nonempty l k : k ∈ first_seen_keys l -> members l k <> [].
Proof.
  intros (x & Hx & <-)%first_seen_keys_elem Hnil.
  assert (Hin : In x (members l (key x))).
  { apply filter_In. split; [by apply list_elem_of_In|by apply bool_decide_eq_true_2]. }
  by rewrite Hnil in Hin.
Qed.
End GroupBy.

(** C17: [$group] is correct: the one-pass grouping is the reference
    grouping (the distinct keys in order of first appearance, each with
    exactly its documents in collection order), its keys are distinct,
    and its groups hold every document once. *)
Theorem group_by_correct {A K} `{EqDecision K} (key : A -> K) (l : list A) :
  group_by key l = group_spec key l /\
  NoDup (map fst (group_by key l)) /\
  group_total (group_by key l) = length l.
Proof.
  split; [apply group_by_spec|]. split; [|apply group_by_total].
  rewrite group_by_keys. apply first_seen_keys_NoDup.
Qed.

#[export] Hint Resolve first_seen_keys_NoDup : mongo.
#[export] Hint Rewrite @group_by_spec @group_by_total : mongo_rw.

(** ** Accumulators and stage helpers *)

Definition zsum (l : list Z) : Z := fold_right Z.add 0 l.

(** The numeric prices of a group's members: [$avg] ignores members whose
    [price] is missing. *)
Definition prices (bs : list book) : list Z := omap price bs.

(** [$avg: "$price"] as the exact fraction [(sum, count)] in cents, or
    null when no member has a numeric price. *)
Definition avg_price (bs : list book) : option (Z * Z) :=
  match prices bs with
  | [] => None
  | ps => Some (zsum ps, Z.of_nat (length ps))
  end.

(** [$round: [x, 2]]: a mean in cents rounded to a whole cent, half to
    even; null stays null. *)
Definition round2 (a : option (Z * Z)) : option Z :=
  match a with
  | None => None
  | Some (s, n) => Some (round_half_even s n)
  end.

(** [$sort] on one computed field. *)
Definition key_le {R} (d : direction) (f : R -> value) (r1 r2 : R) : bool :=
  if dir_compare d (f r1) (f r2) is Gt then false else true.

Lemma key_le_total {R} d (f : R -> value) r1 r2 :
  key_le d f r1 r2 = false -> key_le d f r2 r1 = true.
Proof.
  unfold key_le, dir_compare. destruct d;
    rewrite (compare_value_antisym (f r1)) || rewrite (compare_value_antisym (f r2));
    by destruct (compare_value _ _).
Qed.

(** ** Aggregation 1: average price per genre, lines 148-167 *)

(** The documents out of [$group] (lines 150-154). *)
Record genre_group := {
  gg_id : string;
  gg_averagePrice : option (Z * Z);
  gg_count : nat
}.

Definition group_genre (coll : list book) : list genre_group :=
  map (fun '(k, bs) =>
         {| gg_id := k; gg_averagePrice := avg_price bs; gg_count := length bs |})
    (group_by genre coll).

(** The documents out of [$project] (lines 157-162). *)
Record genre_summary := {
  gs_genre : string;
  gs_averagePrice : option Z;
  gs_count : nat
}.

Definition project_genre (g : genre_group) : genre_summary :=
  {| gs_genre := gg_id g; gs_averagePrice := round2 (gg_averagePrice g);
     gs_count := gg_count g |}.

(** [$sort: { averagePrice: -1 }] (line 165). *)
Definition sort_averagePrice_desc : list genre_summary -> list genre_summary :=
  isort (key_le Desc (fun r => opt_money (gs_averagePrice r))).

Definition avgPricePerGenre (coll : list book) : list genre_summary :=
  sort_averagePrice_desc (map project_genre (group_genre coll)).

(** The report a genre should have: its books, their count, and their
    rounded mean price. *)
Definition genre_row (coll : list book) (g : string) : genre_summary :=
  let bs := members genre coll g in
  {| gs_genre := g; gs_averagePrice := round2 (avg_price bs); gs_count := length bs |}.

(** *** Lemmas *)

Lemma zsum_bounds (ps : list Z) lo hi :
  Forall (fun p => lo <= p <= hi) ps ->
  lo * Z.of_nat (length ps) <= zsum ps <= hi * Z.of_nat (length ps).
Proof. induction 1; simpl; lia. Qed.

Lemma avg_price_Some bs s n :
  avg_price bs = Some (s, n) -> s = zsum (prices bs) /\ n = Z.of_nat (length (prices bs)) /\ 0 < n.
Proof.
  unfold avg_price. destruct (prices bs) as [|p ps]; [done|]. intros [= <- <-].
  simpl. lia.
Qed.

Lemma round2_avg_between bs a lo hi :
  round2 (avg_price bs) = Some a ->
  (forall b p, In b bs -> price b = Some p -> lo <= p <= hi) ->
  lo <= a <= hi.
Proof.
  destruct (avg_price bs) as [[s n]|] eqn:E; simpl; [|done]. intros [= <-] Hb.
  destruct (avg_price_Some _ _ _ E) as (-> & -> & Hn).
  assert (Hall : Forall (fun p => lo <= p <= hi) (prices bs)).
  { apply Forall_forall. intros p Hp. unfold prices in Hp.
    apply list_elem_of_omap in Hp as (b & Hb' & Hp). rewrite list_elem_of_In in Hb'. eauto. }
  pose proof (zsum_bounds _ _ _ Hall). apply round_half_even_between; lia.
Qed.

Lemma group_genre_rows coll :
  map project_genre (group_genre coll) = map (genre_row coll) (first_seen_keys genre coll).
Proof.
  unfold group_genre. rewrite group_by_spec. unfold group_spec. by rewrite !map_map.
Qed.

Lemma avgPricePerGenre_perm coll :
  Permutation (avgPricePerGenre coll) (map (genre_row coll) (first_seen_keys genre coll)).
Proof.
  unfold avgPricePerGenre, sort_averagePrice_desc. rewrite isort_perm.
  by rewrite group_genre_rows.
Qed.

Lemma group_total_spec {A K} `{EqDecision K} (key : A -> K) l :
  group_total (group_by key l) = nsum (map (fun k => length (members key l k)) (first_seen_keys key l)).
Proof.
  rewrite group_by_spec. unfold group_spec, group_total, nsum.
  induction (first_seen_keys key l); simpl; auto.
Qed.

Lemma avgPricePerGenre_In_row coll r :
  In r (avgPricePerGenre coll) -> exists g, g ∈ first_seen_keys genre coll /\ r = genre_row coll g.
Proof.
  intros Hr. apply (Permutation_in _ (avgPricePerGenre_perm coll)), in_map_iff in Hr.
  destruct Hr as (g & <- & Hg). exists g. split; [by apply list_elem_of_In|done].
Qed.

(** *** Theorems *)

(** C18: the genre report is the reference report up to order: one row
    per genre of the collection, with the number of its books and their
    mean price rounded to the cent ($group, $project). *)
Theorem avgPricePerGenre_rows coll r :
  In r (avgPricePerGenre coll) <->
  exists g, g ∈ first_seen_keys genre coll /\ r = genre_row coll g.
Proof.
  rewrite (Permutation_In_iff _ _ _ (avgPricePerGenre_perm coll)), in_map_iff.
  setoid_rewrite list_elem_of_In. naive_solver.
Qed.

(** C19: the genre report is sorted by average price from the highest
    down, genres without any price last ($sort, line 165). *)
Theorem avgPricePerGenre_sorted coll :
  Sorted (fun r1 r2 => opt_le (gs_averagePrice r2) (gs_averagePrice r1))
    (avgPricePerGenre coll).
Proof.
  eapply Sorted_weaken; [|apply isort_sorted, key_le_total].
  intros r1 r2 H. apply desc_money_le. unfold leR, key_le in H.
  by destruct (dir_compare _ _ _).
Qed.

(** The book counts of the genre report add up to the number of
    books: every book is counted once, in the group of its genre. *)
Theorem avgPricePerGenre_count_total coll :
  nsum (map gs_count (avgPricePerGenre coll)) = length coll.
Proof.
  rewrite (nsum_perm _ _ (Permutation_map _ (avgPricePerGenre_perm coll))).
  rewrite <- (group_by_total genre coll), group_total_spec, map_map. done.
Qed.

(** C20: a genre's rounded average price lies between the lowest and
    the highest price of the books of that genre. *)
Theorem avgPricePerGenre_avg_between coll r a lo hi :
  In r (avgPricePerGenre coll) -> gs_averagePrice r = Some a ->
  (forall b p, In b coll -> genre b = gs_genre r -> price b = Some p -> lo <= p <= hi) ->
  lo <= a <= hi.
Proof.
  intros (g & _ & ->)%avgPricePerGenre_In_row Ha Hb. simpl in *.
  apply (round2_avg_between _ _ _ _ Ha). intros b p Hin Hp.
  unfold members in Hin. apply filter_In in Hin as [Hin Hg%bool_decide_eq_true].
  eauto.
Qed.

(** ** Aggregation 2: the author with the most books, lines 175-193 *)

(** The documents out of [$group] (lines 176-181). *)
Record author_group := {
  ag_id : string;
  ag_bookCount : nat
}.

Definition group_author (coll : list book) : list author_group :=
  map (fun '(k, bs) => {| ag_id := k; ag_bookCount := length bs |}) (group_by author coll).

(** [$sort: { bookCount: -1 }] (line 182). *)
Definition sort_bookCount_desc : list author_group -> list author_group :=
  isort (key_le Desc (fun r => VInt (Z.of_nat (ag_bookCount r)))).

(** The documents out of [$project] (line 185). *)
Record author_summary := {
  as_author : string;
  as_bookCount : nat
}.

Definition project_author (g : author_group) : author_summary :=
  {| as_author := ag_id g; as_bookCount := ag_bookCount g |}.

(** [$limit: 1] (line 183) then [$project]. *)
Definition topAuthor (coll : list book) : list author_summary :=
  map project_author (apply_limit 1 (sort_bookCount_desc (group_author coll))).

(** Lines 189-193: the line printed for the result. *)
Definition topAuthor_line (res : list author_summary) : string :=
  match res with
  | r :: _ => "   - " +:+ as_author r +:+ " with " +:+ pretty (as_bookCount r) +:+ " books"
  | [] => "   - No authors found."
  end.

(** *** Lemmas *)

Lemma key_le_count_desc {R} (f : R -> nat) r1 r2 :
  key_le Desc (fun r => VInt (Z.of_nat (f r))) r1 r2 = true -> (f r2 <= f r1)%nat.
Proof.
  unfold key_le, dir_compare, compare_value. simpl.
  destruct (Z.compare_spec (100 * Z.of_nat (f r2)) (100 * Z.of_nat (f r1))); done || lia.
Qed.

Lemma sorted_count_head {R} (f : R -> nat) h t :
  Sorted (leR (key_le Desc (fun r => VInt (Z.of_nat (f r))))) (h :: t) ->
  forall r, In r (h :: t) -> (f r <= f h)%nat.
Proof.
  intros Hs. apply (Sorted_weaken _ (fun r1 r2 => f r2 <= f r1)%nat) in Hs;
    [|intros ??; apply key_le_count_desc].
  apply Sorted_StronglySorted in Hs; [|intros ???; lia].
  apply StronglySorted_inv in Hs as [_ Hall]. rewrite Forall_forall in Hall.
  intros r [<-|Hr%list_elem_of_In]; [lia|]. by apply Hall.
Qed.

Lemma group_author_In coll g :
  In g (group_author coll) <->
  ag_id g ∈ first_seen_keys author coll /\ ag_bookCount g = length (members author coll (ag_id g)).
Proof.
  unfold group_author. rewrite in_map_iff. split.
  - intros ([k bs] & <- & Hin%group_by_In). simpl. by destruct Hin as [? ->].
  - intros [Hk Hc]. exists (ag_id g, members author coll (ag_id g)).
    split; [destruct g; simpl in *; by subst|]. by apply group_by_In.
Qed.

Lemma sort_bookCount_desc_In gs g : In g (sort_bookCount_desc gs) <-> In g gs.
Proof. apply isort_In. Qed.

(** *** Theorems *)

(** C22: the top author's count is the number of books by that author,
    and no author has more books. *)
Theorem topAuthor_max coll r :
  topAuthor coll = [r] ->
  as_bookCount r = length (members author coll (as_author r)) /\
  forall b, In b coll -> (length (members author coll (author b)) <= as_bookCount r)%nat.
Proof.
  unfold topAuthor. destruct (sort_bookCount_desc (group_author coll)) as [|h t] eqn:E;
    simpl; [done|]. intros [= <-]. simpl.
  assert (Hh : In h (group_author coll)).
  { apply sort_bookCount_desc_In. rewrite E. by left. }
  apply group_author_In in Hh as [_ Hh]. split; [done|].
  intros b Hb.
  set (g := {| ag_id := author b; ag_bookCount := length (members author coll (author b)) |}).
  assert (Hg : In g (h :: t)).
  { rewrite <- E. apply sort_bookCount_desc_In, group_author_In. split; [|done]. apply first_seen_keys_elem.
    exists b. split; [by apply list_elem_of_In|done]. }
  apply (sorted_count_head ag_bookCount h t) in Hg; [done|].
  rewrite <- E. apply isort_sorted, key_le_total.
Qed.

(** The top-author query returns one author for a non-empty
    collection and nothing for an empty one (the "No authors found."
    branch of line 192). *)
Theorem topAuthor_shape coll :
  (coll = [] -> topAuthor coll = []) /\
  (coll <> [] -> exists r, topAuthor coll = [r]).
Proof.
  split; [by intros ->|]. intros Hne.
  destruct (sort_bookCount_desc (group_author coll)) as [|h t] eqn:E.
  - destruct coll as [|b coll]; [done|].
    assert (Hg : In {| ag_id := author b;
                       ag_bookCount := length (members author (b :: coll) (author b)) |}
                   (group_author (b :: coll))).
    { apply group_author_In. split; [|done]. apply first_seen_keys_elem.
      exists b. split; [by left|done]. }
    apply sort_bookCount_desc_In in Hg. by rewrite E in Hg.
  - exists (project_author h). unfold topAuthor. by rewrite E.
Qed.

(** ** Aggregation 3: books by publication decade, lines 197-253 *)

(** [$subtract: ["$published_year", { $mod: ["$published_year", 10] }]]
    (lines 202 and 207-210).  MongoDB's [$mod] keeps the sign of the
    dividend: it is [Z.rem], not [Z.modulo]. *)
Definition decade_start (y : Z) : Z := y - Z.rem y 10.

(** [$concat: [{ $toString: ... }, "s"]] (lines 201-204). *)
Definition decade_label (y : Z) : string := pretty (decade_start y) +:+ "s".

(** The documents out of [$addFields] (lines 198-213). *)
Record dated_book := {
  db_book : book;
  db_decade : string;
  db_decadeStart : Z
}.

Definition addFields_decade (b : book) : dated_book :=
  {| db_book := b; db_decade := decade_label (published_year b);
     db_decadeStart := decade_start (published_year b) |}.

(** The pushed sub-document (lines 220-225). *)
Record sample_book := {
  sb_title : string;
  sb_author : string;
  sb_year : Z;
  sb_price : option Z
}.

Definition push_sample (d : dated_book) : sample_book :=
  {| sb_title := title (db_book d); sb_author := author (db_book d);
     sb_year := published_year (db_book d); sb_price := price (db_book d) |}.

(** The documents out of [$group] (lines 215-228).  [$first] of a group
    is the value of its first member; a group always has one
    ([members_nonempty]), and 0 stands for the never-used empty case. *)
Record decade_group := {
  dg_id : string;
  dg_decadeStart : Z;
  dg_bookCount : nat;
  dg_books : list sample_book;
  dg_averagePrice : option (Z * Z)
}.

Definition first_decadeStart (ds : list dated_book) : Z :=
  match ds with
  | d :: _ => db_decadeStart d
  | [] => 0
  end.

Definition group_decade (coll : list book) : list decade_group :=
  map (fun '(k, ds) =>
         {| dg_id := k; dg_decadeStart := first_decadeStart ds;
            dg_bookCount := length ds; dg_books := map push_sample ds;
            dg_averagePrice := avg_price (map db_book ds) |})
    (group_by db_decade (map addFields_decade coll)).

(** The documents out of [$project] (lines 231-238), with
    [$slice: ["$books", 3]]. *)
Record decade_summary := {
  ds_decade : string;
  ds_decadeStart : Z;
  ds_bookCount : nat;
  ds_averagePrice : option Z;
  ds_sampleBooks : list sample_book
}.

Definition project_decade (g : decade_group) : decade_summary :=
  {| ds_decade := dg_id g; ds_decadeStart := dg_decadeStart g;
     ds_bookCount := dg_bookCount g; ds_averagePrice := round2 (dg_averagePrice g);
     ds_sampleBooks := firstn 3 (dg_books g) |}.

(** [$sort: { decadeStart: 1 }] (line 241). *)
Definition sort_decadeStart_asc : list decade_summary -> list decade_summary :=
  isort (key_le Asc (fun r => VInt (ds_decadeStart r))).

Definition booksByDecade (coll : list book) : list decade_summary :=
  sort_decadeStart_asc (map project_decade (group_decade coll)).

(** The report a decade should have: the books whose year falls in it,
    their count, their rounded mean price and the first three of them. *)
Definition in_decade (s : Z) (b : book) : bool :=
  bool_decide (decade_start (published_year b) = s).

Definition decade_row (coll : list book) (s : Z) : decade_summary :=
  let bs := List.filter (in_decade s) coll in
  {| ds_decade := pretty s +:+ "s"; ds_decadeStart := s; ds_bookCount := length bs;
     ds_averagePrice := round2 (avg_price bs);
     ds_sampleBooks := firstn 3 (map (fun b => push_sample (addFields_decade b)) bs) |}.

(** *** Lemmas *)

Lemma decade_label_inj y1 y2 :
  decade_label y1 = decade_label y2 <-> decade_start y1 = decade_start y2.
Proof.
  unfold decade_label. split; [|by intros ->].
  intros H%string_app_cancel_r. by apply (inj pretty) in H.
Qed.

Lemma filter_map_comm {A B} (f : B -> bool) (g : A -> B) l :
  List.filter f (map g l) = map g (List.filter (fun x => f (g x)) l).
Proof. induction l as [|x l IH]; simpl; [done|]. destruct (f (g x)); simpl; by rewrite IH. Qed.

Lemma decade_members coll y :
  members db_decade (map addFields_decade coll) (decade_label y) =
  map addFields_decade (List.filter (in_decade (decade_start y)) coll).
Proof.
  unfold members. rewrite filter_map_comm. f_equal. apply filter_ext. intros b.
  unfold in_decade. simpl. apply bool_decide_ext, decade_label_inj.
Qed.

Lemma decade_keys coll k :
  k ∈ first_seen_keys db_decade (map addFields_decade coll) <->
  exists b, In b coll /\ k = decade_label (published_year b).
Proof.
  rewrite first_seen_keys_elem. setoid_rewrite list_elem_of_In. setoid_rewrite in_map_iff. split.
  - intros (d & (b & <- & Hb) & <-). by exists b.
  - intros (b & Hb & ->). exists (addFields_decade b). split; [by exists b|done].
Qed.

Lemma first_decadeStart_filter coll s b :
  In b coll -> decade_start (published_year b) = s ->
  first_decadeStart (map addFields_decade (List.filter (in_decade s) coll)) = s.
Proof.
  intros Hb Hs. induction coll as [|x coll IH]; [done|]. simpl.
  destruct (in_decade s x) eqn:E; simpl.
  - by apply bool_decide_eq_true in E.
  - destruct Hb as [->|Hb]; [|auto]. unfold in_decade in E.
    by rewrite bool_decide_eq_true_2 in E.
Qed.

Lemma group_decade_rows coll :
  map project_decade (group_decade coll) =
  map (fun k => project_decade
         {| dg_id := k;
            dg_decadeStart := first_decadeStart (members db_decade (map addFields_decade coll) k);
            dg_bookCount := length (members db_decade (map addFields_decade coll) k);
            dg_books := map push_sample (members db_decade (map addFields_decade coll) k);
            dg_averagePrice := avg_price (map db_book (members db_decade (map addFields_decade coll) k)) |})
      (first_seen_keys db_decade (map addFields_decade coll)).
Proof. unfold group_decade. rewrite group_by_spec. unfold group_spec. by rewrite !map_map. Qed.

Lemma decade_row_of_key coll b :
  In b coll ->
  project_decade
    {| dg_id := decade_label (published_year b);
       dg_decadeStart := first_decadeStart (members db_decade (map addFields_decade coll) (decade_label (published_year b)));
       dg_bookCount := length (members db_decade (map addFields_decade coll) (decade_label (published_year b)));
       dg_books := map push_sample (members db_decade (map addFields_decade coll) (decade_label (published_year b)));
       dg_averagePrice := avg_price (map db_book (members db_decade (map addFields_decade coll) (decade_label (published_year b)))) |}
  = decade_row coll (decade_start (published_year b)).
Proof.
  intros Hb. rewrite !decade_members. unfold project_decade, decade_row. simpl.
  rewrite (first_decadeStart_filter _ _ b Hb eq_refl), length_map, !map_map, map_id.
  done.
Qed.

Lemma booksByDecade_perm coll :
  Permutation (booksByDecade coll) (map project_decade (group_decade coll)).
Proof. apply isort_perm. Qed.

Lemma booksByDecade_In_row coll r :
  In r (booksByDecade coll) ->
  exists b, In b coll /\ r = decade_row coll (decade_start (published_year b)).
Proof.
  intros Hr. apply (Permutation_in _ (booksByDecade_perm coll)) in Hr.
  rewrite group_decade_rows, in_map_iff in Hr. destruct Hr as (k & <- & Hk).
  apply list_elem_of_In, decade_keys in Hk as (b & Hb & ->).
  exists b. split; [done|]. by apply decade_row_of_key.
Qed.

(** *** Theorems *)

(** For a year of the common era, the decade start is the largest
    multiple of 10 not above the year, as the spec's glossary says. *)
Theorem decade_start_nonneg y :
  0 <= y -> decade_start y = 10 * (y / 10) /\ decade_start y <= y < decade_start y + 10.
Proof. unfold decade_start. intros. solve_zdiv. Qed.

(** C25: for a negative year that is not a multiple of 10, [$mod] keeps
    the sign of the year, so the decade start is the multiple of 10 just
    above the year, not the floor the spec prescribes (-1945 is put in
    the "-1940s"). *)
Theorem decade_start_negative y :
  y < 0 -> Z.rem y 10 <> 0 ->
  decade_start y = 10 * (y / 10) + 10 /\ y < decade_start y.
Proof. unfold decade_start. intros. solve_zdiv. Qed.

(** C23: the decade report is the reference report up to order: one row
    per decade that has a book, with the decade's label, start, number of
    books, rounded mean price and its first three books in collection
    order. *)
Theorem booksByDecade_rows coll r :
  In r (booksByDecade coll) <->
  exists b, In b coll /\ r = decade_row coll (decade_start (published_year b)).
Proof.
  rewrite (Permutation_In_iff _ _ _ (booksByDecade_perm coll)), group_decade_rows, in_map_iff.
  split.
  - intros (k & <- & Hk). apply list_elem_of_In, decade_keys in Hk as (b & Hb & ->).
    exists b. split; [done|]. by apply decade_row_of_key.
  - intros (b & Hb & ->). eexists. split; [by apply decade_row_of_key|].
    apply list_elem_of_In, decade_keys. by exists b.
Qed.

Lemma booksByDecade_labels coll :
  Permutation (map ds_decade (booksByDecade coll))
    (first_seen_keys db_decade (map addFields_decade coll)).
Proof.
  rewrite (Permutation_map _ (booksByDecade_perm coll)), <- group_by_keys.
  unfold group_decade. rewrite !map_map. apply Permutation_refl'.
  apply map_ext. by intros [k ds].
Qed.

Lemma booksByDecade_row_label coll r :
  In r (booksByDecade coll) -> ds_decade r = pretty (ds_decadeStart r) +:+ "s".
Proof. intros (b & _ & ->)%booksByDecade_In_row. done. Qed.

(** C24: the decade report is sorted by decade start, strictly: one row
    per decade, the oldest first ($sort, line 241). *)
Theorem booksByDecade_sorted coll :
  Sorted (fun r1 r2 => ds_decadeStart r1 < ds_decadeStart r2) (booksByDecade coll).
Proof.
  apply Sorted_strict.
  - eapply Sorted_weaken; [|apply isort_sorted, key_le_total].
    intros r1 r2. unfold leR, key_le, dir_compare, compare_value. simpl.
    destruct (Z.compare_spec (100 * ds_decadeStart r1) (100 * ds_decadeStart r2)); done || lia.
  - assert (Heq : map (fun r => pretty (ds_decadeStart r) +:+ "s") (booksByDecade coll) =
                  map ds_decade (booksByDecade coll)).
    { apply map_ext_in. intros r Hr. symmetry. by apply (booksByDecade_row_label coll). }
    apply NoDup_ListNoDup, (NoDup_map_inv (fun s => pretty s +:+ "s")).
    rewrite map_map, Heq.
    apply (Permutation_NoDup (Permutation_sym (booksByDecade_labels coll))).
    apply NoDup_ListNoDup, first_seen_keys_NoDup.
Qed.

(** A decade keeps at most three sample books: exactly the smaller
    of 3 and its number of books ($slice, line 236). *)
Theorem booksByDecade_samples coll r :
  In r (booksByDecade coll) ->
  length (ds_sampleBooks r) = Nat.min 3 (ds_bookCount r).
Proof.
  intros (b & _ & ->)%booksByDecade_In_row. simpl.
  by rewrite length_firstn, length_map.
Qed.

(** The book counts of the decade report add up to the number of
    books. *)
Theorem booksByDecade_count_total coll :
  nsum (map ds_bookCount (booksByDecade coll)) = length coll.
Proof.
  rewrite (nsum_perm _ _ (Permutation_map _ (booksByDecade_perm coll))).
  rewrite <- (length_map addFields_decade coll), <- (group_by_total db_decade).
  unfold group_decade, group_total, nsum. rewrite !map_map.
  induction (group_by db_decade _) as [|[k ds] gs IH]; simpl; auto.
Qed.

(** [$round] rounds a half cent to the even cent: two books at
    10.99 and 11.50 average 11.245, reported as 11.24, where the spec's
    round-half-away-from-zero gives 11.25. *)
Example genre_average_half_even :
  avgPricePerGenre [nineteen84; brave] =
    [{| gs_genre := "Dystopian"; gs_averagePrice := Some 1124; gs_count := 2 |}] /\
  round_half_up (1099 + 1150) 2 = 1125.
Proof. vm_compute. split; reflexivity. Qed.

(** The genre count counts every book of the genre while the
    average skips the books that have no price: a genre with a 10.00
    book and a book without a price reports 2 books at an average of
    10.00. *)
Example genre_count_includes_unpriced :
  avgPricePerGenre [mk "A" "X" "Drama" 2001 (Some 1000) true None;
                    mk "B" "Y" "Drama" 2002 None true None] =
    [{| gs_genre := "Drama"; gs_averagePrice := Some 1000; gs_count := 2 |}].
Proof. vm_compute. reflexivity. Qed.

(** ** Witnesses and runs *)

Lemma avgPricePerGenre_avg_between_witness :
  999 <= 1132 <= 1299.
Proof.
  apply (avgPricePerGenre_avg_between sample_books
           {| gs_genre := "Fiction"; gs_averagePrice := Some 1132; gs_count := 3 |}).
  - vm_compute. tauto.
  - reflexivity.
  - intros b p Hb Hg Hp. simpl in Hb.
    destruct Hb as [<-|[<-|[<-|[<-|[<-|[<-|[<-|[]]]]]]]]; simpl in *;
      try discriminate; injection Hp as <-; lia.
Defined.

Lemma topAuthor_max_witness :
  as_bookCount {| as_author := "George Orwell"; as_bookCount := 2 |} =
    length (members author sample_books "George Orwell") /\
  forall b, In b sample_books ->
    (length (members author sample_books (author b)) <= 2)%nat.
Proof. apply (topAuthor_max sample_books). vm_compute. reflexivity. Defined.

Lemma booksByDecade_samples_witness :
  length (ds_sampleBooks (decade_row sample_books 1940)) =
  Nat.min 3 (ds_bookCount (decade_row sample_books 1940)).
Proof.
  apply (booksByDecade_samples sample_books). vm_compute. tauto.
Defined.

Lemma decade_start_nonneg_witness :
  decade_start 1949 = 10 * (1949 / 10) /\ decade_start 1949 <= 1949 < decade_start 1949 + 10.
Proof. apply decade_start_nonneg. lia. Defined.

Lemma decade_start_negative_witness :
  decade_start (-1945) = 10 * (-1945 / 10) + 10 /\ -1945 < decade_start (-1945).
Proof. apply decade_start_negative; [lia|vm_compute; discriminate]. Defined.

Example negative_year_label : decade_label (-1945) = "-1940s".
Proof. vm_compute. reflexivity. Qed.

Example topAuthor_run :
  topAuthor_line (topAuthor sample_books) = "   - George Orwell with 2 books".
Proof. vm_compute. reflexivity. Qed.

Example booksByDecade_run :
  map (fun r => (ds_decade r, ds_bookCount r, ds_averagePrice r)) (booksByDecade sample_books) =
  [("1850s", 1%nat, Some 1250); ("1920s", 1%nat, Some 999); ("1930s", 1%nat, Some 1150);
   ("1940s", 2%nat, Some 974); ("1960s", 1%nat, Some 1299); ("1980s", 1%nat, Some 1099)].
Proof. vm_compute. reflexivity. Qed.
