(* ===== verification/Indexes.v ===== *)
(** * Indexes: [createIndex] and [explain("executionStats")]

    src/queries.js lines 255-298.  The collection's indexes are a list of
    index descriptions (name and key pattern), in creation order, starting
    with MongoDB's [_id_] index.  [createIndex] returns the name of the
    index with the requested key pattern: it creates it under MongoDB's
    generated name ([field_dir] parts joined by [_]) when there is none,
    and returns that name, without error, when the index already exists
    under it.  It fails when the key pattern exists under another name
    (MongoDB's [IndexOptionsConflict], "Index already exists with a
    different name") and when another key pattern already holds the
    generated name ([IndexKeySpecsConflict]).  Index options (unique,
    collation, ...) are not used by the script and not modelled.  [explain] reports [totalDocsExamined]: a query whose
    filter constrains the first field of an index is answered by an index
    scan that fetches the documents within the index bounds (the
    documents that satisfy the filter's conditions on the index's
    fields); any other query is a collection scan that examines every
    document.  The planner picks the first usable index in creation
    order ([Planner] abstracts that choice).  [executionTimeMillis] is
    timing, an input of the environment in [Script]. *)

From S2P Require Import Prelude Books Query.

(** ** Index descriptions and names *)

Definition field_name (f : field) : string :=
  match f with
  | FTitle => "title"
  | FAuthor => "author"
  | FGenre => "genre"
  | FPublishedYear => "published_year"
  | FPrice => "price"
  | FInStock => "in_stock"
  | FPublisher => "publisher"
  end.

Definition direction_name (d : direction) : string :=
  match d with Asc => "1" | Desc => "-1" end.

Definition key_part (k : field * direction) : string :=
  field_name (fst k) +:+ "_" +:+ direction_name (snd k).

(** MongoDB's default index name: [{ author: 1, published_year: -1 }] is
    [author_1_published_year_-1]. *)
Fixpoint index_name (keys : list (field * direction)) : string :=
  match keys with
  | [] => ""
  | [k] => key_part k
  | k :: ks => key_part k +:+ "_" +:+ index_name ks
  end.

Record index := {
  ix_name : string;
  ix_keys : list (field * direction)
}.

#[export] Instance direction_eq_dec : EqDecision direction.
Proof. solve_decision. Defined.

(** The [_id_] index every collection has; [_id] is not a modelled
    field, so its key pattern is empty here. *)
Definition id_index : index := {| ix_name := "_id_"; ix_keys := [] |}.

(** ** [createIndex] *)

Inductive create_result :=
| IndexCreated (name : string)
| IndexExists (name : string)
| IndexOptionsConflict (existing : string)
| IndexKeySpecsConflict (name : string).

Definition createIndex (keys : list (field * direction)) (ixs : list index)
  : create_result * list index :=
  let n := index_name keys in
  match find_first (fun ix => bool_decide (ix_keys ix = keys)) ixs with
  | Some ix =>
      if bool_decide (ix_name ix = n) then (IndexExists n, ixs)
      else (IndexOptionsConflict (ix_name ix), ixs)
  | None =>
      if existsb (fun ix => bool_decide (ix_name ix = n)) ixs
      then (IndexKeySpecsConflict n, ixs)
      else (IndexCreated n, ixs ++ [{| ix_name := n; ix_keys := keys |}])
  end.

(** The driver's promise: a name for the first two outcomes, a thrown
    error for the conflicts. *)
Definition create_outcome (r : create_result) : option string :=
  match r with
  | IndexCreated n | IndexExists n => Some n
  | IndexOptionsConflict _ | IndexKeySpecsConflict _ => None
  end.

(** The message of the error the driver throws. *)
Definition create_error (r : create_result) : string :=
  match r with
  | IndexOptionsConflict m => "IndexOptionsConflict: Index already exists with a different name: " +:+ m
  | IndexKeySpecsConflict n => "IndexKeySpecsConflict: An existing index has the same name as the requested index: " +:+ n
  | IndexCreated _ | IndexExists _ => ""
  end.

(** Lines 260 and 267. *)
Definition titleIndexKeys : list (field * direction) := [(FTitle, Asc)].
Definition compoundIndexKeys : list (field * direction) :=
  [(FAuthor, Asc); (FPublishedYear, Desc)].

(** ** [explain]: the documents a query examines *)

Definition cond_field (c : cond) : field :=
  match c with CEq f _ | CGt f _ | CGte f _ => f end.

(** An index is usable when the filter constrains its first field. *)
Definition usable (q : query) (ix : index) : bool :=
  match ix_keys ix with
  | (f, _) :: _ => existsb (fun c => bool_decide (cond_field c = f)) q
  | [] => false
  end.

Inductive plan :=
| IXSCAN (ix : index)
| COLLSCAN.

Definition choose_plan (q : query) (ixs : list index) : plan :=
  match find_first (usable q) ixs with
  | Some ix => IXSCAN ix
  | None => COLLSCAN
  end.

(** The conditions of the filter on the fields of the index: the index
    bounds. *)
Definition index_bounds (q : query) (ix : index) : query :=
  List.filter (fun c => bool_decide (cond_field c ∈ map fst (ix_keys ix))) q.

Definition totalDocsExamined (q : query) (ixs : list index) (coll : list book) : nat :=
  match choose_plan q ixs with
  | IXSCAN ix => length (List.filter (matches (index_bounds q ix)) coll)
  | COLLSCAN => length coll
  end.

(** Lines 277-295. *)
Definition titleQuery : query := [CEq FTitle (VStr "1984")].
Definition collectionScanQuery : query := [CEq FPublisher (VStr "HarperOne")].
Definition compoundQuery : query :=
  [CEq FAuthor (VStr "George Orwell"); CGte FPublishedYear (VInt 1940)].

(** The indexes after lines 260 and 267 on a collection that has only
    [_id_]. *)
Definition script_indexes : list index :=
  snd (createIndex compoundIndexKeys (snd (createIndex titleIndexKeys [id_index]))).

(** ** Reading an index name back

    [index_name] is the printer of MongoDB's generated names; these
    functions are its parser: a field name and [_], then [1] or [-1], then
    the end of the name or [_] and the next key.  The fuel is the length
    of the name: each key consumes at least one character. *)

Fixpoint strip_prefix (p s : string) : option string :=
  match p, s with
  | EmptyString, _ => Some s
  | String a p', String b s' => if Ascii.eqb a b then strip_prefix p' s' else None
  | String _ _, EmptyString => None
  end.

Fixpoint parse_field_in (fs : list field) (s : string) : option (field * string) :=
  match fs with
  | [] => None
  | f :: fs' =>
      match strip_prefix (field_name f +:+ "_") s with
      | Some r => Some (f, r)
      | None => parse_field_in fs' s
      end
  end.

Definition parse_field (s : string) : option (field * string) := parse_field_in all_fields s.

Definition parse_direction (s : string) : option (direction * string) :=
  match strip_prefix "1" s with
  | Some r => Some (Asc, r)
  | None => option_map (pair Desc) (strip_prefix "-1" s)
  end.

Fixpoint parse_keys (fuel : nat) (s : string) : option (list (field * direction)) :=
  match fuel with
  | O => None
  | S n =>
      match parse_field s with
      | None => None
      | Some (f, r) =>
          match parse_direction r with
          | None => None
          | Some (d, EmptyString) => Some [(f, d)]
          | Some (d, r') =>
              match strip_prefix "_" r' with
              | Some r'' => option_map (cons (f, d)) (parse_keys n r'')
              | None => None
              end
          end
      end
  end.

Definition parse_index_name (s : string) : option (list (field * direction)) :=
  parse_keys (String.length s) s.

(** ** Well-formed index lists

    Every index is [_id_] or was created by [createIndex]: a non-empty key
    pattern under its generated name. *)

#[export] Instance index_eq_dec : EqDecision index.
Proof. solve_decision. Defined.

Definition index_wf (ix : index) : bool :=
  bool_decide (ix = id_index) ||
  (negb (bool_decide (ix_keys ix = [])) && bool_decide (ix_name ix = index_name (ix_keys ix))).

Definition indexes_wf (ixs : list index) : bool := forallb index_wf ixs.

(** ** Lemmas *)

Lemma find_first_app_None {A} (p : A -> bool) l x :
  find_first p l = None -> p x = true -> find_first p (l ++ [x]) = Some x.
Proof.
  intros H Hx. induction l as [|y l IH]; simpl in *; [by rewrite Hx|].
  destruct (p y); [done|]. auto.
Qed.

Lemma matches_sublist q q' b :
  (forall c, In c q' -> In c q) -> matches q b = true -> matches q' b = true.
Proof.
  unfold matches. rewrite !forallb_forall. intros Hsub Hq c Hc. auto.
Qed.

Lemma filter_length_mono {A} (p p' : A -> bool) l :
  (forall x, p x = true -> p' x = true) ->
  (length (List.filter p l) <= length (List.filter p' l))%nat.
Proof.
  intros H. induction l as [|x l IH]; simpl; [lia|].
  destruct (p x) eqn:E; [rewrite (H x E); simpl; lia|]. destruct (p' x); simpl; lia.
Qed.

Lemma filter_length_le {A} (p : A -> bool) l : (length (List.filter p l) <= length l)%nat.
Proof. induction l as [|x l IH]; simpl; [lia|]. destruct (p x); simpl; lia. Qed.

Lemma index_bounds_sub q ix c : In c (index_bounds q ix) -> In c q.
Proof. unfold index_bounds. rewrite filter_In. tauto. Qed.

Lemma index_bounds_covered q ix :
  (forall c, In c q -> cond_field c ∈ map fst (ix_keys ix)) -> index_bounds q ix = q.
Proof.
  intros Hcov. unfold index_bounds. apply forallb_filter_id.
  apply forallb_forall. intros c Hc. by apply bool_decide_eq_true_2, Hcov.
Qed.

Lemma strip_prefix_app p s : strip_prefix p (p +:+ s) = Some s.
Proof. induction p as [|a p IH]; simpl; [done|]. by rewrite Ascii.eqb_refl. Qed.

Lemma parse_field_name f s : parse_field (field_name f +:+ "_" +:+ s) = Some (f, s).
Proof. destruct f; reflexivity. Qed.

Lemma parse_direction_name d s : parse_direction (direction_name d +:+ s) = Some (d, s).
Proof. destruct d; reflexivity. Qed.

Lemma index_name_length ks : (length ks <= String.length (index_name ks))%nat.
Proof.
  induction ks as [|k [|k' ks] IH]; [simpl; lia|..].
  - unfold index_name, key_part. rewrite !string_length_app. simpl. lia.
  - unfold index_name at 1; fold index_name. rewrite !string_length_app.
    simpl in IH |- *. lia.
Qed.

Lemma index_name_cons k k' ks :
  index_name (k :: k' :: ks) =
    field_name (fst k) +:+ "_" +:+ (direction_name (snd k) +:+ "_" +:+ index_name (k' :: ks)).
Proof.
  change (index_name (k :: k' :: ks)) with (key_part k +:+ "_" +:+ index_name (k' :: ks)).
  unfold key_part. by rewrite !string_app_assoc.
Qed.

(** A name parses key part by key part: [key_part k] then, when keys
    follow, [_] and their name. *)
Lemma parse_keys_cons n k ks :
  parse_keys (S n) (index_name (k :: ks)) =
    match ks with
    | [] => Some [k]
    | _ => option_map (cons k) (parse_keys n (index_name ks))
    end.
Proof.
  destruct k as [f d]. destruct ks as [|k' ks].
  - change (index_name [(f, d)]) with (field_name f +:+ "_" +:+ direction_name d).
    rewrite <- (string_app_nil_r (direction_name d)). cbn [parse_keys]. rewrite parse_field_name, parse_direction_name. reflexivity.
  - rewrite index_name_cons. cbn [parse_keys fst snd].
    rewrite parse_field_name, parse_direction_name, strip_prefix_app. exact eq_refl.
Qed.

Lemma parse_keys_index_name ks n :
  ks <> [] -> (length ks <= n)%nat -> parse_keys n (index_name ks) = Some ks.
Proof.
  revert n. induction ks as [|k ks IH]; intros n Hne Hn; [done|].
  destruct n as [|n]; [simpl in Hn; lia|]. rewrite parse_keys_cons.
  destruct ks as [|k' ks]; [done|]. rewrite IH; [done|done|simpl in *; lia].
Qed.

Lemma index_name_inj ks1 ks2 :
  ks1 <> [] -> ks2 <> [] -> index_name ks1 = index_name ks2 -> ks1 = ks2.
Proof.
  intros H1 H2 E.
  pose proof (parse_keys_index_name ks1 _ H1 (index_name_length ks1)) as P1.
  pose proof (parse_keys_index_name ks2 _ H2 (index_name_length ks2)) as P2.
  rewrite E in P1. congruence.
Qed.

Lemma index_name_not_id ks : ks <> [] -> index_name ks <> "_id_".
Proof.
  intros H E. pose proof (parse_keys_index_name ks _ H (index_name_length ks)) as P.
  rewrite E in P. discriminate.
Qed.

Lemma index_wf_spec ix :
  index_wf ix = true ->
  ix = id_index \/ (ix_keys ix <> [] /\ ix_name ix = index_name (ix_keys ix)).
Proof.
  unfold index_wf. rewrite orb_true_iff, andb_true_iff, negb_true_iff.
  rewrite !bool_decide_eq_true, bool_decide_eq_false. tauto.
Qed.

(** In a well-formed list, the index named after a non-empty key pattern
    is the index of that pattern. *)
Lemma wf_name_keys ixs ix keys :
  indexes_wf ixs = true -> In ix ixs -> keys <> [] ->
  ix_name ix = index_name keys -> ix_keys ix = keys.
Proof.
  unfold indexes_wf. rewrite forallb_forall. intros Hwf Hin Hk Hn.
  destruct (index_wf_spec ix (Hwf ix Hin)) as [->|[Hne Hix]].
  - by destruct (index_name_not_id keys Hk).
  - apply index_name_inj; congruence.
Qed.

(** ** Theorems *)

(** C30: [createIndex] is idempotent: once a call has given a name, the
    same call again returns that name and changes nothing, without an
    error.  The [catch] branches of lines 262-264 and 269-271, which
    print that the index "already exists", are not reached because the
    index exists. *)
Theorem createIndex_again keys ixs n :
  create_outcome (fst (createIndex keys ixs)) = Some n ->
  createIndex keys (snd (createIndex keys ixs)) = (IndexExists n, snd (createIndex keys ixs)).
Proof.
  unfold createIndex. destruct (find_first _ ixs) as [ix|] eqn:E; simpl.
  - case_bool_decide; simpl; [|done]. intros [= <-]. rewrite E. by rewrite bool_decide_eq_true_2.
  - destruct (existsb _ ixs); simpl; [done|]. intros [= <-].
    rewrite (find_first_app_None _ _ _ E) by (simpl; by rewrite bool_decide_eq_true_2).
    simpl. by rewrite bool_decide_eq_true_2.
Qed.

(** An explained query examines at least every document it returns
    and at most the whole collection. *)
Theorem totalDocsExamined_bounds q ixs coll :
  (length (List.filter (matches q) coll) <= totalDocsExamined q ixs coll <= length coll)%nat.
Proof.
  unfold totalDocsExamined. destruct (choose_plan q ixs) as [ix|].
  - split; [|apply filter_length_le]. apply filter_length_mono.
    intros b. apply matches_sublist, index_bounds_sub.
  - split; [apply filter_length_le|done].
Qed.

(** When the chosen index covers every field of the filter, the
    index scan examines exactly the documents the query returns. *)
Theorem totalDocsExamined_covered q ixs coll ix :
  choose_plan q ixs = IXSCAN ix ->
  (forall c, In c q -> cond_field c ∈ map fst (ix_keys ix)) ->
  totalDocsExamined q ixs coll = length (List.filter (matches q) coll).
Proof.
  intros Hp Hcov. unfold totalDocsExamined. rewrite Hp. by rewrite index_bounds_covered.
Qed.

(** The plans of the three explained queries on the script's indexes. *)
Lemma docs_examined_titleQuery coll :
  totalDocsExamined titleQuery script_indexes coll =
    length (List.filter (matches titleQuery) coll).
Proof.
  unfold totalDocsExamined.
  replace (choose_plan titleQuery script_indexes)
    with (IXSCAN {| ix_name := "title_1"; ix_keys := titleIndexKeys |}) by reflexivity.
  rewrite index_bounds_covered; [done|]. intros c [<-|[]]. vm_compute. by left.
Qed.

Lemma docs_examined_compoundQuery coll :
  totalDocsExamined compoundQuery script_indexes coll =
    length (List.filter (matches compoundQuery) coll).
Proof.
  unfold totalDocsExamined.
  replace (choose_plan compoundQuery script_indexes)
    with (IXSCAN {| ix_name := "author_1_published_year_-1"; ix_keys := compoundIndexKeys |})
    by reflexivity.
  rewrite index_bounds_covered; [done|].
  intros c [<-|[<-|[]]]; vm_compute; [by left|by right; left].
Qed.

Lemma docs_examined_collectionScanQuery coll :
  totalDocsExamined collectionScanQuery script_indexes coll = length coll.
Proof. reflexivity. Qed.

(** C32: the generated index name determines the key pattern: reading a
    name [index_name] printed gives back its keys, fields and directions
    in order. *)
Theorem index_name_roundtrip ks : ks <> [] -> parse_index_name (index_name ks) = Some ks.
Proof. intros H. apply parse_keys_index_name; [done|apply index_name_length]. Qed.

(** [createIndex] keeps the list of indexes well formed: [_id_] and
    indexes under their generated names. *)
Theorem createIndex_preserves_wf keys ixs :
  keys <> [] -> indexes_wf ixs = true -> indexes_wf (snd (createIndex keys ixs)) = true.
Proof.
  intros Hk Hwf. unfold createIndex.
  destruct (find_first _ ixs); [by case_bool_decide|]. destruct (existsb _ ixs); [done|].
  simpl. unfold indexes_wf in *. rewrite forallb_app, Hwf. simpl. unfold index_wf. simpl.
  rewrite (bool_decide_eq_true_2 (index_name keys = index_name keys)) by done.
  rewrite (bool_decide_eq_false_2 (keys = [])) by done. by rewrite orb_true_r.
Qed.

(** On a well-formed list of indexes, [createIndex] with a non-empty
    key pattern never fails: it returns the generated name, whether it
    creates the index or finds it.  So the [catch] blocks of lines
    262-264 and 269-271 run only when the server call itself fails. *)
Theorem createIndex_no_conflict keys ixs :
  keys <> [] -> indexes_wf ixs = true ->
  create_outcome (fst (createIndex keys ixs)) = Some (index_name keys).
Proof.
  intros Hk Hwf. unfold createIndex.
  destruct (find_first _ ixs) as [ix|] eqn:F.
  - destruct (find_first_In _ _ _ F) as [Hin Hp]. apply bool_decide_eq_true in Hp.
    unfold indexes_wf in Hwf. rewrite forallb_forall in Hwf.
    destruct (index_wf_spec ix (Hwf ix Hin)) as [->|[_ Hn]]; simpl in *; [done|].
    rewrite Hn, Hp. by rewrite bool_decide_eq_true_2.
  - destruct (existsb _ ixs) eqn:E; [|done]. exfalso.
    apply existsb_exists in E as [ix [Hin Hn]]. apply bool_decide_eq_true in Hn.
    apply find_first_None with (x := ix) in F; [|done].
    rewrite bool_decide_eq_false in F. apply F. by apply (wf_name_keys ixs).
Qed.

(** C31: the error path of lines 259-264 and 266-271: when the key
    pattern already has an index under a name other than the generated
    one (an index created with an explicit name), [createIndex] throws
    MongoDB's "Index already exists with a different name" and leaves
    the indexes unchanged, so the [catch] block runs. *)
Theorem createIndex_other_name keys ixs :
  (exists ix, In ix ixs /\ ix_keys ix = keys) ->
  (forall ix, In ix ixs -> ix_keys ix = keys -> ix_name ix <> index_name keys) ->
  create_outcome (fst (createIndex keys ixs)) = None /\ snd (createIndex keys ixs) = ixs.
Proof.
  intros [ix0 [Hin0 Hk0]] Hn. unfold createIndex.
  destruct (find_first _ ixs) as [ix|] eqn:F.
  - destruct (find_first_In _ _ _ F) as [Hin Hp]. apply bool_decide_eq_true in Hp.
    by rewrite bool_decide_eq_false_2 by (apply Hn; done).
  - exfalso. apply find_first_None with (x := ix0) in F; [|done].
    rewrite bool_decide_eq_false in F. done.
Qed.

Lemma createIndex_again_witness :
  createIndex titleIndexKeys (snd (createIndex titleIndexKeys [id_index])) =
  (IndexExists "title_1", snd (createIndex titleIndexKeys [id_index])).
Proof. apply createIndex_again. reflexivity. Defined.

Lemma totalDocsExamined_covered_witness :
  totalDocsExamined titleQuery script_indexes sample_books =
  length (List.filter (matches titleQuery) sample_books).
Proof.
  apply (totalDocsExamined_covered _ _ _ {| ix_name := "title_1"; ix_keys := titleIndexKeys |}).
  - reflexivity.
  - intros c [<-|[]]. vm_compute. by left.
Defined.

Lemma index_name_roundtrip_witness :
  parse_index_name (index_name compoundIndexKeys) = Some compoundIndexKeys.
Proof. apply index_name_roundtrip. discriminate. Defined.

(** An index on [title] created earlier under the name [my_title]. *)
Lemma createIndex_other_name_witness :
  create_outcome (fst (createIndex titleIndexKeys
    [id_index; {| ix_name := "my_title"; ix_keys := titleIndexKeys |}])) = None /\
  snd (createIndex titleIndexKeys
    [id_index; {| ix_name := "my_title"; ix_keys := titleIndexKeys |}]) =
    [id_index; {| ix_name := "my_title"; ix_keys := titleIndexKeys |}].
Proof.
  apply createIndex_other_name.
  - exists {| ix_name := "my_title"; ix_keys := titleIndexKeys |}. split; [right; left|]; done.
  - intros ix [<-|[<-|[]]]; vm_compute; done.
Defined.

Example index_names :
  index_name titleIndexKeys = "title_1" /\
  index_name compoundIndexKeys = "author_1_published_year_-1".
Proof. split; reflexivity. Qed.

Example createIndex_runs :
  fst (createIndex titleIndexKeys [id_index]) = IndexCreated "title_1" /\
  fst (createIndex compoundIndexKeys (snd (createIndex titleIndexKeys [id_index]))) =
    IndexCreated "author_1_published_year_-1" /\
  fst (createIndex titleIndexKeys script_indexes) = IndexExists "title_1".
Proof. vm_compute. repeat split. Qed.

Example explain_runs :
  totalDocsExamined titleQuery script_indexes sample_books = 1%nat /\
  totalDocsExamined collectionScanQuery script_indexes sample_books = 7%nat /\
  totalDocsExamined compoundQuery script_indexes sample_books = 2%nat.
Proof. vm_compute. repeat split. Qed.
