(* ===== verification/Planner.v ===== *)
(** * Planner: what the query planner promises, and the explained queries

    src/queries.js lines 273-298 print [totalDocsExamined] of
    [explain("executionStats")] for three queries.  The number depends on
    the plan the server's planner picks, and MongoDB's planner picks among
    the candidate indexes by a trial run that the model does not
    reproduce.  This file states what any planner promises ([plan_ok]:
    an index scan uses an index whose leading field the filter constrains;
    a collection scan is chosen only when no index qualifies) as the class
    [Planner], shows that the modelled planner of [Indexes]
    ([choose_plan], the first candidate in creation order) is an instance,
    and proves that on the script's indexes every planner that keeps the
    promise picks the same plan for the script's three queries: the
    numbers the script prints do not depend on the planner's choice. *)

From S2P Require Import Prelude Books Query Indexes.

(** The documents a plan examines: those within the index bounds for an
    index scan, the whole collection for a collection scan. *)
Definition plan_docs (q : query) (p : plan) (coll : list book) : nat :=
  match p with
  | IXSCAN ix => length (List.filter (matches (index_bounds q ix)) coll)
  | COLLSCAN => length coll
  end.

(** The planner's promise. *)
Definition plan_ok (q : query) (ixs : list index) (p : plan) : Prop :=
  match p with
  | IXSCAN ix => In ix ixs /\ usable q ix = true
  | COLLSCAN => forall ix, In ix ixs -> usable q ix = false
  end.

Class Planner := {
  pick : query -> list index -> plan;
  pick_ok q ixs : plan_ok q ixs (pick q ixs)
}.

(** ** The modelled planner keeps the promise *)

Lemma choose_plan_ok q ixs : plan_ok q ixs (choose_plan q ixs).
Proof.
  unfold choose_plan. destruct (find_first (usable q) ixs) eqn:E; simpl.
  - by apply find_first_In.
  - intros ix Hin. by apply (find_first_None (usable q) ixs).
Qed.

#[export] Instance first_usable : Planner := {| pick := choose_plan; pick_ok := choose_plan_ok |}.

Lemma totalDocsExamined_plan_docs q ixs coll :
  totalDocsExamined q ixs coll = plan_docs q (choose_plan q ixs) coll.
Proof. reflexivity. Qed.

(** ** The script's indexes leave no choice *)

Lemma script_indexes_eq :
  script_indexes =
    [id_index; {| ix_name := "title_1"; ix_keys := titleIndexKeys |};
     {| ix_name := "author_1_published_year_-1"; ix_keys := compoundIndexKeys |}].
Proof. reflexivity. Qed.

(** For each explained query of the script, one plan keeps the promise:
    the title query has one candidate ([title_1]), the compound query one
    ([author_1_published_year_-1]) and the publisher query none. *)
Lemma script_plan_unique q p :
  In q [titleQuery; compoundQuery; collectionScanQuery] ->
  plan_ok q script_indexes p -> p = choose_plan q script_indexes.
Proof.
  rewrite script_indexes_eq. intros Hq Hp.
  destruct p as [ix|]; simpl in Hp.
  - destruct Hp as [Hin Hu].
    destruct Hq as [<-|[<-|[<-|[]]]];
      (repeat destruct Hin as [<-|Hin]); try done; vm_compute in Hu; done.
  - destruct Hq as [<-|[<-|[<-|[]]]]; [| |reflexivity].
    + by specialize (Hp _ (or_intror (or_introl eq_refl))).
    + by specialize (Hp _ (or_intror (or_intror (or_introl eq_refl)))).
Qed.

(** ** Theorems *)

(** C33: refinement of the planner's promise: whatever plan a planner
    that keeps [plan_ok] picks on the indexes the script creates, the
    title query and the compound query examine exactly the books they
    return, and the publisher query, on a field without an index,
    examines every book: the counts lines 281, 288 and 298 print. *)
Theorem explain_any_planner `{Planner} coll :
  plan_docs titleQuery (pick titleQuery script_indexes) coll =
    length (List.filter (matches titleQuery) coll) /\
  plan_docs compoundQuery (pick compoundQuery script_indexes) coll =
    length (List.filter (matches compoundQuery) coll) /\
  plan_docs collectionScanQuery (pick collectionScanQuery script_indexes) coll = length coll.
Proof.
  rewrite (script_plan_unique titleQuery (pick _ _)), (script_plan_unique compoundQuery (pick _ _)),
    (script_plan_unique collectionScanQuery (pick _ _)) by (apply pick_ok || (simpl; tauto)).
  split; [apply docs_examined_titleQuery|].
  split; [apply docs_examined_compoundQuery|apply docs_examined_collectionScanQuery].
Qed.

Example explain_first_usable :
  plan_docs compoundQuery (@pick first_usable compoundQuery script_indexes) sample_books = 2%nat.
Proof. vm_compute. reflexivity. Qed.
