(* ===== verification/Script.v ===== *)
(** * Script: [runAllQueries], lines 1-309

    The whole script as a program in a state and exception monad [M].  The
    state holds the collection, its indexes, whether the client is
    connected, the console output (stdout and stderr lines, in order) and
    the number of driver calls made so far.  Every awaited driver call
    ([connect], [find(...).toArray()], [updateOne], [deleteOne],
    [aggregate(...).toArray()], [createIndex], [explain], [close]) goes
    through [call], which may throw: the Section variable [fails] says
    which calls (numbered from 0 in program order) the server or the
    network makes fail, and [millis] gives the [executionTimeMillis] an
    explain reports.  [console.log] cannot fail.  [try_catch] and
    [try_finally] are JavaScript's [try]/[catch] and [try]/[finally]: a
    thrown error skips the rest of the [try] block, the [catch] block runs
    on the state the error left, and the [finally] block always runs. *)

From S2P Require Import Prelude Books Query Writes Aggregate Indexes.

(** ** State, outcomes and the monad *)

Inductive line :=
| Out (s : string)
| Err (s : string).

Record state := {
  coll : list book;
  indexes : list index;
  connected : bool;
  out : list line;
  calls : nat
}.

Inductive outcome (A : Type) :=
| Ok (a : A)
| Throw (e : string).
Arguments Ok {A} a.
Arguments Throw {A} e.

Definition M (A : Type) : Type := state -> outcome A * state.

Definition ret {A} (a : A) : M A := fun s => (Ok a, s).

Definition bind {A B} (m : M A) (k : A -> M B) : M B :=
  fun s =>
    match m s with
    | (Ok a, s') => k a s'
    | (Throw e, s') => (Throw e, s')
    end.

Notation "x <- m ;; k" := (bind m (fun x => k))
  (at level 100, m at next level, right associativity) : mongo_scope.
Notation "m ;; k" := (bind m (fun _ => k))
  (at level 100, right associativity) : mongo_scope.
Open Scope mongo_scope.

Definition with_coll (c : list book) (s : state) : state :=
  {| coll := c; indexes := indexes s; connected := connected s; out := out s; calls := calls s |}.
Definition with_indexes (ixs : list index) (s : state) : state :=
  {| coll := coll s; indexes := ixs; connected := connected s; out := out s; calls := calls s |}.
Definition with_connected (b : bool) (s : state) : state :=
  {| coll := coll s; indexes := indexes s; connected := b; out := out s; calls := calls s |}.
Definition emit (l : line) (s : state) : state :=
  {| coll := coll s; indexes := indexes s; connected := connected s; out := out s ++ [l];
     calls := calls s |}.
Definition tick (s : state) : state :=
  {| coll := coll s; indexes := indexes s; connected := connected s; out := out s;
     calls := S (calls s) |}.

(** [console.log] and [console.error]. *)
Definition log (l : string) : M unit := fun s => (Ok tt, emit (Out l) s).
Definition log_error (l : string) : M unit := fun s => (Ok tt, emit (Err l) s).

(** [try { m } catch (e) { h(e) }]. *)
Definition try_catch {A} (m : M A) (h : string -> M A) : M A :=
  fun s =>
    match m s with
    | (Throw e, s') => h e s'
    | r => r
    end.

(** [try { m } finally { f }]: [f] runs in both cases; an error of [f]
    replaces the outcome of [m]. *)
Definition try_finally {A} (m : M A) (f : M unit) : M A :=
  fun s =>
    let '(r, s1) := m s in
    let '(r2, s2) := f s1 in
    match r2 with
    | Throw e => (Throw e, s2)
    | Ok _ => (r, s2)
    end.

(** [array.forEach(f)] with a body that only logs. *)
Fixpoint forEach {A} (xs : list A) (f : A -> M unit) : M unit :=
  match xs with
  | [] => ret tt
  | x :: xs' => f x ;; forEach xs' f
  end.

(** ** Printing values in template literals *)

Definition nl : string := String (Ascii.ascii_of_nat 10) EmptyString.

Definition value_text (v : value) : string :=
  match v with
  | VNull => "null"
  | VInt z => pretty z
  | VMoney c => js_money c
  | VStr s => s
  | VBool b => if b then "true" else "false"
  end.

(** [${doc.f}]: a field the document lacks prints as [undefined]. *)
Definition field_text (d : doc) (f : field) : string :=
  match List.find (fun p => bool_decide (fst p = f)) d with
  | Some (_, v) => value_text v
  | None => "undefined"
  end.

Definition opt_money_text (o : option Z) : string :=
  match o with Some c => js_money c | None => "undefined" end.

(** An aggregated average: [$round] of null is null. *)
Definition avg_text (o : option Z) : string :=
  match o with Some c => js_money c | None => "null" end.

(** A separator line of [n] equal signs. *)
Fixpoint rule (n : nat) : string :=
  match n with
  | O => ""
  | S k => "=" +:+ rule k
  end.

(** [explain("executionStats").executionStats]. *)
Record exec_stats := {
  es_executionTimeMillis : nat;
  es_totalDocsExamined : nat
}.

(** ** The run, under an environment of failures and timings *)

Create HintDb script.

Section Run.
Variable fails : nat -> bool.
Variable millis : nat -> nat.

(** One awaited driver call: the call is counted, and either the
    environment makes it throw, leaving the state as it was, or the
    operation runs. *)
Definition call {A} (op : state -> outcome A * state) : M A :=
  fun s => if fails (calls s) then (Throw "MongoServerError", tick s) else op (tick s).

Definition connect : M unit := call (fun s => (Ok tt, with_connected true s)).
Definition close : M unit := call (fun s => (Ok tt, with_connected false s)).

Definition find_toArray (q : query) (o : find_options) : M (list doc) :=
  call (fun s => (Ok (find q o (coll s)), s)).

Definition updateOne_call (q : query) (p : Z) : M update_result :=
  call (fun s => let '(r, c) := updateOne q p (coll s) in (Ok r, with_coll c s)).

Definition deleteOne_call (q : query) : M delete_result :=
  call (fun s => let '(r, c) := deleteOne q (coll s) in (Ok r, with_coll c s)).

Definition aggregate_toArray {R} (pipeline : list book -> list R) : M (list R) :=
  call (fun s => (Ok (pipeline (coll s)), s)).

Definition createIndex_call (keys : list (field * direction)) : M string :=
  call (fun s =>
    let '(r, ixs) := createIndex keys (indexes s) in
    match create_outcome r with
    | Some n => (Ok n, with_indexes ixs s)
    | None => (Throw (create_error r), s)
    end).

Definition explain_call (q : query) : M exec_stats :=
  call (fun s => (Ok {| es_executionTimeMillis := millis (calls s);
                        es_totalDocsExamined := totalDocsExamined q (indexes s) (coll s) |}, s)).

(** *** Tasks 1 to 5, lines 13-82 *)

Definition title_by_author (d : doc) : string :=
  "   - " +:+ quoted (field_text d FTitle) +:+ " by " +:+ field_text d FAuthor.

Definition task1 : M unit :=
  log " TASK 1: FIND BOOKS BY GENRE" ;;
  log (rule 30) ;;
  log (nl +:+ "📖 Fiction Books:") ;;
  fiction <- find_toArray fictionBooks default_options ;;
  forEach fiction (fun d => log (title_by_author d)) ;;
  log (nl +:+ " Dystopian Books:") ;;
  dystopian <- find_toArray dystopianBooks default_options ;;
  forEach dystopian (fun d => log (title_by_author d)) ;;
  log (nl +:+ rule 30 +:+ nl).

Definition task2 : M unit :=
  log " TASK 2: FIND BOOKS PUBLISHED AFTER A CERTAIN YEAR" ;;
  log (rule 53) ;;
  log (nl +:+ " Books published after " +:+ pretty year +:+ ":") ;;
  recent <- find_toArray recentBooks default_options ;;
  forEach recent (fun d =>
    log (title_by_author d +:+ " (" +:+ field_text d FPublishedYear +:+ ")")) ;;
  log (rule 53 +:+ nl).

Definition task3 : M unit :=
  log " TASK 3: FIND BOOKS BY A SPECIFIC AUTHOR" ;;
  log (rule 45) ;;
  log (nl +:+ " Books by " +:+ authorName +:+ ":") ;;
  byAuthor <- find_toArray authorBooks default_options ;;
  forEach byAuthor (fun d =>
    log ("   - " +:+ quoted (field_text d FTitle) +:+ " (" +:+
         field_text d FPublishedYear +:+ ")")) ;;
  log (rule 45 +:+ nl).

Definition task4_run : M unit :=
  log " TASK 4: UPDATE THE PRICE OF A CERTAIN BOOK" ;;
  log (rule 47) ;;
  r <- updateOne_call [CEq FTitle (VStr bookTitle)] newPrice ;;
  (if Nat.ltb 0 (modifiedCount r) then log updated_msg else log (not_found_msg bookTitle)) ;;
  log (rule 47 +:+ nl).

Definition task5_run : M unit :=
  log " TASK 5: DELETE A BOOK BY TITLE" ;;
  log (rule 35) ;;
  r <- deleteOne_call [CEq FTitle (VStr deleteTitle)] ;;
  (if Nat.ltb 0 (deletedCount r) then log deleted_msg else log (not_found_msg deleteTitle)) ;;
  log (rule 35 +:+ nl).

(** *** Advanced queries 1 to 5, lines 84-144 *)

Definition found_line (n : nat) : string := "   Found " +:+ pretty n +:+ " books:".

Definition advanced1 : M unit :=
  log (nl +:+ "📚 ADVANCED QUERY 1: Books in stock AND published after 1950:") ;;
  docs <- find_toArray inStockRecent inStockRecent_options ;;
  log (found_line (length docs)) ;;
  forEach docs (fun d =>
    log (title_by_author d +:+ " (" +:+ field_text d FPublishedYear +:+ ") - $" +:+
         field_text d FPrice)).

Definition advanced2 : M unit :=
  log (nl +:+ " ADVANCED QUERY 2: All books with only title and author fields:") ;;
  docs <- find_toArray [] allBooksProjection_options ;;
  log (found_line (length docs)) ;;
  forEach docs (fun d => log (title_by_author d)).

Definition advanced3 : M unit :=
  log (nl +:+ " ADVANCED QUERY 3: All books sorted by price (high to low):") ;;
  docs <- find_toArray [] sortedByPrice_options ;;
  log (found_line (length docs)) ;;
  forEach docs (fun d => log (title_by_author d +:+ " - $" +:+ field_text d FPrice)).

Definition advanced4 : M unit :=
  log (nl +:+ " ADVANCED QUERY 4: All books sorted by published year (oldest to newest):") ;;
  docs <- find_toArray [] sortedByYear_options ;;
  log (found_line (length docs)) ;;
  forEach docs (fun d =>
    log (title_by_author d +:+ " (" +:+ field_text d FPublishedYear +:+ ")")).

Definition advanced5 : M unit :=
  log (nl +:+ " ADVANCED QUERY 5: First 5 books (pagination):") ;;
  docs <- find_toArray [] firstFiveBooks_options ;;
  log (found_line (length docs)) ;;
  forEach docs (fun d => log (title_by_author d)).

(** *** Aggregations 1 to 3, lines 146-253 *)

(** The line of line 170 for one row of the genre report. *)
Definition genre_line (g : genre_summary) : string :=
  "   - " +:+ gs_genre g +:+ ": $" +:+ avg_text (gs_averagePrice g) +:+
  " (based on " +:+ pretty (gs_count g) +:+ " books)".

Definition aggregation1 : M unit :=
  log (nl +:+ " AGGREGATION 1: Average book price per genre:") ;;
  rows <- aggregate_toArray avgPricePerGenre ;;
  forEach rows (fun g => log (genre_line g)).

Definition aggregation2 : M unit :=
  log (nl +:+ " AGGREGATION 2: Author with the most books:") ;;
  top <- aggregate_toArray topAuthor ;;
  log (topAuthor_line top).

Definition sample_line (b : sample_book) : string :=
  "        - " +:+ quoted (sb_title b) +:+ " (" +:+ pretty (sb_year b) +:+ ") - $" +:+
  opt_money_text (sb_price b).

Definition aggregation3 : M unit :=
  log (nl +:+ " AGGREGATION 3: Books Grouped by Publication Decade:") ;;
  decades <- aggregate_toArray booksByDecade ;;
  forEach decades (fun r =>
    log ("   " +:+ ds_decade r +:+ ":") ;;
    log ("      Total Books: " +:+ pretty (ds_bookCount r)) ;;
    log ("      Average Price: $" +:+ avg_text (ds_averagePrice r)) ;;
    log "      Sample Books:" ;;
    forEach (ds_sampleBooks r) (fun b => log (sample_line b))).

(** *** Indexes and the explain comparison, lines 255-298 *)

Definition create_indexes : M unit :=
  log (nl +:+ "⚡ INDEX CREATION AND PERFORMANCE DEMONSTRATION:") ;;
  try_catch
    (n <- createIndex_call titleIndexKeys ;;
     log (" Created index on 'title' field: " +:+ n))
    (fun _ => log "ℹ Index on 'title' already exists") ;;
  try_catch
    (n <- createIndex_call compoundIndexKeys ;;
     log (" Created compound index on 'author' and 'published_year': " +:+ n))
    (fun _ => log " Compound index on 'author' and 'published_year' already exists").

Definition stats_lines (label : string) (st : exec_stats) : M unit :=
  log ("   " +:+ label +:+ " - Execution Time: " +:+ pretty (es_executionTimeMillis st) +:+ " ms") ;;
  log ("   Documents Examined: " +:+ pretty (es_totalDocsExamined st)).

Definition performance : M unit :=
  log (nl +:+ " QUERY PERFORMANCE COMPARISON:") ;;
  withIndex <- explain_call titleQuery ;;
  log (" Query: Find book titled " +:+ quoted "1984") ;;
  stats_lines "With Index" withIndex ;;
  collectionScan <- explain_call collectionScanQuery ;;
  log (nl +:+ " Query: Find books by publisher 'HarperOne'") ;;
  stats_lines "Without Index" collectionScan ;;
  compound <- explain_call compoundQuery ;;
  log (nl +:+ " Query: Find books by George Orwell published after 1940") ;;
  stats_lines "With Compound Index" compound.

(** *** [runAllQueries], lines 6-306 *)

Definition body : M unit :=
  connect ;;
  log ("Connected to MongoDB successfully!" +:+ nl) ;;
  task1 ;; task2 ;; task3 ;; task4_run ;; task5_run ;;
  advanced1 ;; advanced2 ;; advanced3 ;; advanced4 ;; advanced5 ;;
  aggregation1 ;; aggregation2 ;; aggregation3 ;;
  create_indexes ;; performance.

Definition closed_msg : string := nl +:+ " Connection closed".

Definition runAllQueries : M unit :=
  try_finally
    (try_catch body (fun e => log_error (" Error: " +:+ e)))
    (close ;; log closed_msg).

(** *** Initial states and environments for the concrete runs *)

(** The state of line 4: a fresh client, not connected, with the
    collection [c] holding only the [_id_] index. *)
Definition initial_state (c : list book) : state :=
  {| coll := c; indexes := [id_index]; connected := false; out := []; calls := 0 |}.

Definition no_failures : nat -> bool := fun _ => false.
Definition no_millis : nat -> nat := fun _ => 0%nat.

(** The connection fails: call 0 throws. *)
Definition connect_fails : nat -> bool := fun n => Nat.eqb n 0.

(** ** A program logic for [M]

    [triple P m Q E]: from a state satisfying [P], [m] either returns [a]
    in a state satisfying [Q a] or throws in a state satisfying [E]. *)

Definition triple {A} (P : state -> Prop) (m : M A) (Q : A -> state -> Prop)
    (E : state -> Prop) : Prop :=
  forall s, P s ->
    match m s with
    | (Ok a, s') => Q a s'
    | (Throw _, s') => E s'
    end.

Lemma triple_bind {A B} P (m : M A) (k : A -> M B) R Q E :
  triple P m R E -> (forall a, triple (R a) (k a) Q E) -> triple P (bind m k) Q E.
Proof.
  intros Hm Hk s Hs. unfold bind. specialize (Hm s Hs).
  destruct (m s) as [[a|e] s']; [by apply Hk|done].
Qed.

Lemma triple_conseq {A} P P' (m : M A) Q Q' E E' :
  triple P' m Q' E' -> (forall s, P s -> P' s) ->
  (forall a s, Q' a s -> Q a s) -> (forall s, E' s -> E s) -> triple P m Q E.
Proof.
  intros Hm HP HQ HE s Hs. specialize (Hm s (HP s Hs)).
  destruct (m s) as [[a|e] s']; auto.
Qed.

Lemma triple_try_catch {A} P (m : M A) h Q E E' :
  triple P m Q E' -> (forall e, triple E' (h e) Q E) -> triple P (try_catch m h) Q E.
Proof.
  intros Hm Hh s Hs. unfold try_catch. specialize (Hm s Hs).
  destruct (m s) as [[a|e] s']; [done|by apply Hh].
Qed.

(** Some call of the environment fails. *)
Definition Fault : Prop := exists n, fails n = true.

Lemma triple_call {A} P (op : state -> outcome A * state) Q E :
  (forall s, P s -> fails (calls s) = true -> E (tick s)) ->
  (forall s, P s -> fails (calls s) = false ->
     match op (tick s) with
     | (Ok a, s') => Q a s'
     | (Throw _, s') => E s'
     end) ->
  triple P (call op) Q E.
Proof. intros Hf Hok s Hs. unfold call. destruct (fails (calls s)) eqn:F; [by apply Hf|by apply Hok]. Qed.

(** The collection is [c]. *)
Definition CollIs (c : list book) (s : state) : Prop := coll s = c.

(** A step that leaves the collection alone, also when it throws. *)
Definition KeepsColl {A} (m : M A) : Prop :=
  forall c, triple (CollIs c) m (fun _ => CollIs c) (CollIs c).

(** A step that leaves the collection alone and throws only when a call
    of the environment fails. *)
Definition ReadOnly {A} (m : M A) : Prop :=
  forall c, triple (CollIs c) m (fun _ => CollIs c) (fun s => CollIs c s /\ Fault).

Lemma ro_keeps {A} (m : M A) : ReadOnly m -> KeepsColl m.
Proof. intros H c. eapply triple_conseq; [apply H|done|done|]. by intros s [? _]. Qed.

Lemma ro_ret {A} (a : A) : ReadOnly (ret a).
Proof. intros c s Hs. done. Qed.

Lemma ro_log l : ReadOnly (log l).
Proof. intros c s Hs. done. Qed.

Lemma ro_log_error l : ReadOnly (log_error l).
Proof. intros c s Hs. done. Qed.

Lemma ro_bind {A B} (m : M A) (k : A -> M B) :
  ReadOnly m -> (forall a, ReadOnly (k a)) -> ReadOnly (bind m k).
Proof. intros Hm Hk c. eapply triple_bind; [apply Hm|]. intros a. apply Hk. Qed.

Lemma keeps_bind {A B} (m : M A) (k : A -> M B) :
  KeepsColl m -> (forall a, KeepsColl (k a)) -> KeepsColl (bind m k).
Proof. intros Hm Hk c. eapply triple_bind; [apply Hm|]. intros a. apply Hk. Qed.

Lemma ro_forEach {A} (xs : list A) f : (forall x, ReadOnly (f x)) -> ReadOnly (forEach xs f).
Proof. intros Hf. induction xs; simpl; [apply ro_ret|]. by apply ro_bind. Qed.

Lemma ro_if {A} (b : bool) (m1 m2 : M A) : ReadOnly m1 -> ReadOnly m2 -> ReadOnly (if b then m1 else m2).
Proof. by destruct b. Qed.

Lemma ro_read {A} (f : state -> A) : ReadOnly (call (fun s => (Ok (f s), s))).
Proof. intros c. apply triple_call; [|done]. intros s Hs F. split; [done|by exists (calls s)]. Qed.

Lemma ro_find q o : ReadOnly (find_toArray q o).
Proof. apply ro_read. Qed.

Lemma ro_aggregate {R} (p : list book -> list R) : ReadOnly (aggregate_toArray p).
Proof. apply ro_read. Qed.

Lemma ro_explain q : ReadOnly (explain_call q).
Proof. apply ro_read. Qed.

Lemma keeps_createIndex keys : KeepsColl (createIndex_call keys).
Proof.
  intros c. apply triple_call; [done|]. intros s Hs _.
  destruct (createIndex keys (indexes (tick s))) as [r ixs].
  by destruct (create_outcome r).
Qed.

Lemma ro_try_catch {A} (m : M A) h :
  KeepsColl m -> (forall e, ReadOnly (h e)) -> ReadOnly (try_catch m h).
Proof. intros Hm Hh c. eapply triple_try_catch; [apply Hm|]. intros e. apply Hh. Qed.

Lemma ro_connect : ReadOnly connect.
Proof. intros c. apply triple_call; [|done]. intros s Hs F. split; [done|by exists (calls s)]. Qed.

#[local] Hint Resolve ro_ret ro_log ro_log_error ro_bind keeps_bind ro_forEach ro_if ro_find
  ro_aggregate ro_explain keeps_createIndex ro_try_catch ro_connect ro_keeps : script.

Ltac read_only := repeat (unfold task1, task2, task3, advanced1, advanced2, advanced3,
  advanced4, advanced5, aggregation1, aggregation2, aggregation3, create_indexes,
  performance, stats_lines); eauto 30 with script.

Lemma tasks_read_only :
  ReadOnly task1 /\ ReadOnly task2 /\ ReadOnly task3 /\
  ReadOnly advanced1 /\ ReadOnly advanced2 /\ ReadOnly advanced3 /\
  ReadOnly advanced4 /\ ReadOnly advanced5 /\
  ReadOnly aggregation1 /\ ReadOnly aggregation2 /\ ReadOnly aggregation3 /\
  ReadOnly create_indexes /\ ReadOnly performance.
Proof. repeat split; read_only. Qed.

Lemma keeps_coll_snd {A} (m : M A) s : KeepsColl m -> coll (snd (m s)) = coll s.
Proof.
  intros H. specialize (H (coll s) s eq_refl).
  by destruct (m s) as [[a|e] s'].
Qed.

Lemma ro_triple {A} (m : M A) c (P : list book -> Prop) :
  ReadOnly m -> P c -> triple (CollIs c) m (fun _ => CollIs c) (fun s => P (coll s) /\ Fault).
Proof.
  intros Hm Hc. eapply triple_conseq; [apply (Hm c)|done|done|].
  intros s [Hs F]. unfold CollIs in Hs. by rewrite Hs.
Qed.

Ltac ro_seq := eapply triple_bind; [apply ro_triple; [eauto 30 with script|auto]|intros ?].

Lemma write_call_triple {A} c c' (P : list book -> Prop) (op : list book -> A * list book) :
  P c -> c' = snd (op c) ->
  triple (CollIs c) (call (fun s => let '(r, c1) := op (coll s) in (Ok r, with_coll c1 s)))
    (fun _ => CollIs c') (fun s => P (coll s) /\ Fault).
Proof.
  intros Hc ->. apply triple_call.
  - intros s Hs F. unfold CollIs in Hs. simpl. rewrite Hs. split; [done|by exists (calls s)].
  - intros s Hs _. unfold CollIs in *. simpl. rewrite Hs. by destruct (op c).
Qed.

Lemma task4_run_triple c (P : list book -> Prop) :
  P c -> P (snd (Writes.task4 c)) ->
  triple (CollIs c) task4_run (fun _ => CollIs (snd (Writes.task4 c)))
    (fun s => P (coll s) /\ Fault).
Proof.
  intros Hc Hc'. unfold task4_run. do 2 ro_seq.
  eapply triple_bind;
    [apply (write_call_triple c (snd (Writes.task4 c)) P
              (updateOne [CEq FTitle (VStr bookTitle)] newPrice)); [done|]|].
  - unfold Writes.task4. by destruct (updateOne _ _ c).
  - intros r. apply ro_triple; [eauto 30 with script|done].
Qed.

Lemma task5_run_triple c (P : list book -> Prop) :
  P c -> P (snd (Writes.task5 c)) ->
  triple (CollIs c) task5_run (fun _ => CollIs (snd (Writes.task5 c)))
    (fun s => P (coll s) /\ Fault).
Proof.
  intros Hc Hc'. unfold task5_run. do 2 ro_seq.
  eapply triple_bind;
    [apply (write_call_triple c (snd (Writes.task5 c)) P
              (deleteOne [CEq FTitle (VStr deleteTitle)])); [done|]|].
  - unfold Writes.task5. by destruct (deleteOne _ c).
  - intros r. apply ro_triple; [eauto 30 with script|done].
Qed.


Lemma body_triple c (P : list book -> Prop) :
  P c -> P (snd (Writes.task4 c)) -> P (snd (Writes.task5 (snd (Writes.task4 c)))) ->
  triple (CollIs c) body (fun _ => CollIs (snd (Writes.task5 (snd (Writes.task4 c)))))
    (fun s => P (coll s) /\ Fault).
Proof.
  intros Hc Hc1 Hc2. destruct tasks_read_only as (?&?&?&?&?&?&?&?&?&?&?&?&?).
  unfold body. do 5 ro_seq.
  eapply triple_bind; [by apply task4_run_triple|intros ?].
  eapply triple_bind; [by apply task5_run_triple|intros ?].
  apply ro_triple; [eauto 30 with script|done].
Qed.

(** The [try]/[catch] of lines 7-301 never lets an error out. *)
Lemma try_catch_log_error (m : M unit) s :
  fst (try_catch m (fun e => log_error (" Error: " +:+ e)) s) = Ok tt.
Proof. unfold try_catch. by destruct (m s) as [[[]|e] s']. Qed.

(** The end of [runAllQueries]: the [finally] block of lines 302-305 runs
    on the state the [try]/[catch] left. *)
Lemma runAllQueries_finally s0 :
  let s1 := snd (try_catch body (fun e => log_error (" Error: " +:+ e)) s0) in
  runAllQueries s0 =
    if fails (calls s1) then (Throw "MongoServerError", tick s1)
    else (Ok tt, emit (Out closed_msg) (with_connected false (tick s1))).
Proof.
  cbv zeta. unfold runAllQueries, try_finally.
  pose proof (try_catch_log_error body s0) as H.
  destruct (try_catch _ _ s0) as [r s1]. simpl in H |- *. subst r.
  unfold bind, close, call. by destruct (fails (calls s1)).
Qed.


Lemma body_outcome s0 :
  match body s0 with
  | (Ok _, s1) => coll s1 = snd (Writes.task5 (snd (Writes.task4 (coll s0))))
  | (Throw _, s1) =>
      (coll s1 = coll s0 \/ coll s1 = snd (Writes.task4 (coll s0)) \/
       coll s1 = snd (Writes.task5 (snd (Writes.task4 (coll s0))))) /\ Fault
  end.
Proof.
  apply (body_triple (coll s0) (fun x => x = coll s0 \/ x = snd (Writes.task4 (coll s0)) \/
    x = snd (Writes.task5 (snd (Writes.task4 (coll s0)))))); [tauto..|done].
Qed.


Lemma runAllQueries_coll_body s0 :
  coll (snd (runAllQueries s0)) = coll (snd (body s0)).
Proof.
  rewrite runAllQueries_finally. unfold try_catch.
  destruct (body s0) as [[a|e] s1]; by destruct (fails _).
Qed.


Lemma call_ok {A} (op : state -> outcome A * state) s :
  fails (calls s) = false -> call op s = op (tick s).
Proof. intros F. unfold call. by rewrite F. Qed.



End Run.

(** Running a straight-line piece of the script symbolically: unfold the
    monad and the state updates, and take the non-failing branch of the
    call whose failure flag is [F]. *)
Ltac run_unfold :=
  cbv beta iota zeta delta [task4_run task5_run bind ret log log_error call try_catch
    updateOne_call deleteOne_call createIndex_call create_indexes explain_call
    stats_lines performance
    emit tick with_coll with_indexes with_connected];
  cbn [coll indexes connected out calls].
Ltac run_step F := run_unfold; rewrite ?F.
Ltac run_done := run_unfold; rewrite <- ?app_assoc; reflexivity.

(** ** Theorems about the whole run *)

(** C8: whatever the environment does, [runAllQueries] ends in its
    [finally] block: when it returns, the client has been closed and the
    last line printed is "Connection closed"; it throws only when
    [client.close()] itself fails, the last call it made. *)
Theorem runAllQueries_closes fails millis s0 :
  match runAllQueries fails millis s0 with
  | (Ok _, s) => connected s = false /\ last (out s) = Some (Out closed_msg)
  | (Throw _, s) => fails (pred (calls s)) = true
  end.
Proof.
  rewrite runAllQueries_finally.
  destruct (fails _) eqn:F; simpl; [done|]. split; [done|]. by rewrite last_snoc.
Qed.

(** C9: the writes of the run happen in program order and each at most
    once: the collection [runAllQueries] leaves is the one it found, or
    that one after Task 4's [updateOne], or that one after Task 4's
    [updateOne] and then Task 5's [deleteOne], whatever calls fail. *)
Theorem runAllQueries_coll fails millis s0 :
  let c := coll (snd (runAllQueries fails millis s0)) in
  c = coll s0 \/ c = snd (Writes.task4 (coll s0)) \/
  c = snd (Writes.task5 (snd (Writes.task4 (coll s0)))).
Proof.
  cbv zeta. rewrite runAllQueries_coll_body.
  pose proof (body_outcome fails millis s0) as H.
  destruct (body fails millis s0) as [[a|e] s1]; simpl; [auto|tauto].
Qed.

(** C10: when no call fails, [runAllQueries] returns normally, closed,
    with the collection after Task 4's update and Task 5's delete. *)
Theorem runAllQueries_no_fault fails millis s0 :
  (forall n, fails n = false) ->
  fst (runAllQueries fails millis s0) = Ok tt /\
  connected (snd (runAllQueries fails millis s0)) = false /\
  coll (snd (runAllQueries fails millis s0)) =
    snd (Writes.task5 (snd (Writes.task4 (coll s0)))).
Proof.
  intros NF. pose proof (runAllQueries_coll_body fails millis s0) as Hc.
  rewrite runAllQueries_finally in Hc |- *. rewrite NF in Hc |- *. simpl in *.
  rewrite Hc. pose proof (body_outcome fails millis s0) as H.
  destruct (body fails millis s0) as [[a|e] s1]; [done|].
  destruct H as [_ [n Hn]]. by rewrite NF in Hn.
Qed.

(** C11: an error thrown anywhere in the [try] block of lines 7-299 is
    caught and printed on stderr as " Error: ..." right before the
    [finally] block's "Connection closed", when closing succeeds. *)
Theorem runAllQueries_error_reported fails millis s0 e :
  fst (body fails millis s0) = Throw e ->
  fails (calls (snd (body fails millis s0))) = false ->
  out (snd (runAllQueries fails millis s0)) =
    out (snd (body fails millis s0)) ++ [Err (" Error: " +:+ e); Out closed_msg].
Proof.
  intros Hb. rewrite runAllQueries_finally. unfold try_catch.
  destruct (body fails millis s0) as [r s1]. simpl in Hb |- *. subst r.
  intros F. simpl. rewrite F. simpl. by rewrite <- app_assoc.
Qed.

(** Task 4 of the script (lines 54-69) implements [Writes.task4]:
    when its [updateOne] call does not fail, it leaves the collection
    [Writes.task4] computes and prints, between its header lines, the
    message [Writes.task4] chooses. *)
Theorem task4_run_refines fails s :
  fails (calls s) = false ->
  task4_run fails s =
    (Ok tt, {| coll := snd (Writes.task4 (coll s)); indexes := indexes s;
               connected := connected s;
               out := out s ++ map Out [" TASK 4: UPDATE THE PRICE OF A CERTAIN BOOK"; rule 47;
                                        fst (Writes.task4 (coll s)); rule 47 +:+ nl];
               calls := S (calls s) |}).
Proof.
  intros F. unfold Writes.task4. run_step F.
  destruct (updateOne _ _ (coll s)) as [r c']. destruct (Nat.ltb 0 (modifiedCount r)); run_done.
Qed.

(** The index creation of lines 255-271 prints the name each
    [createIndex] call returns, under "Created index", whenever the call
    returns one, whether the index was created or already existed; the
    "already exists" messages of the [catch] blocks are printed only when
    [createIndex] throws. *)
Theorem create_indexes_names fails s r1 ixs1 n1 r2 ixs2 n2 :
  fails (calls s) = false -> fails (S (calls s)) = false ->
  createIndex titleIndexKeys (indexes s) = (r1, ixs1) -> create_outcome r1 = Some n1 ->
  createIndex compoundIndexKeys ixs1 = (r2, ixs2) -> create_outcome r2 = Some n2 ->
  create_indexes fails s =
    (Ok tt, {| coll := coll s; indexes := ixs2; connected := connected s;
               out := out s ++ map Out
                 [nl +:+ "⚡ INDEX CREATION AND PERFORMANCE DEMONSTRATION:";
                  " Created index on 'title' field: " +:+ n1;
                  " Created compound index on 'author' and 'published_year': " +:+ n2];
               calls := S (S (calls s)) |}).
Proof.
  intros F1 F2 H1 O1 H2 O2. run_step F1. rewrite H1, O1. run_step F2. rewrite H2, O2. run_done.
Qed.

(** C16: the performance comparison of lines 273-298, run on the indexes
    the script creates, prints as "Documents Examined" the number of books
    the title query returns, the size of the collection for the publisher
    query, and the number of books the compound query returns; the times
    are the ones the server reports. *)
Theorem performance_docs_examined fails millis s :
  fails (calls s) = false -> fails (S (calls s)) = false ->
  fails (S (S (calls s))) = false -> indexes s = script_indexes ->
  performance fails millis s =
    (Ok tt, {| coll := coll s; indexes := indexes s; connected := connected s;
               out := out s ++ map Out
                 [nl +:+ " QUERY PERFORMANCE COMPARISON:";
                  " Query: Find book titled " +:+ quoted "1984";
                  "   With Index - Execution Time: " +:+ pretty (millis (S (calls s))) +:+ " ms";
                  "   Documents Examined: " +:+
                    pretty (length (List.filter (matches titleQuery) (coll s)));
                  nl +:+ " Query: Find books by publisher 'HarperOne'";
                  "   Without Index - Execution Time: " +:+
                    pretty (millis (S (S (calls s)))) +:+ " ms";
                  "   Documents Examined: " +:+ pretty (length (coll s));
                  nl +:+ " Query: Find books by George Orwell published after 1940";
                  "   With Compound Index - Execution Time: " +:+
                    pretty (millis (S (S (S (calls s))))) +:+ " ms";
                  "   Documents Examined: " +:+
                    pretty (length (List.filter (matches compoundQuery) (coll s)))];
               calls := S (S (S (calls s))) |}).
Proof.
  intros F1 F2 F3 Hix. run_step F1. run_step F2. run_step F3. rewrite Hix.
  rewrite docs_examined_titleQuery, docs_examined_collectionScanQuery,
    docs_examined_compoundQuery. run_done.
Qed.

(** C13: on a well-formed list of indexes (a fresh collection, or the
    indexes an earlier run left), when its two calls do not fail, the
    index creation of lines 255-271 prints "Created index ... title_1"
    and "Created compound index ... author_1_published_year_-1" and
    never the "already exists" messages of its [catch] blocks. *)
Theorem create_indexes_wf fails s :
  fails (calls s) = false -> fails (S (calls s)) = false -> indexes_wf (indexes s) = true ->
  fst (create_indexes fails s) = Ok tt /\
  out (snd (create_indexes fails s)) = out s ++ map Out
    [nl +:+ "⚡ INDEX CREATION AND PERFORMANCE DEMONSTRATION:";
     " Created index on 'title' field: title_1";
     " Created compound index on 'author' and 'published_year': author_1_published_year_-1"].
Proof.
  intros F1 F2 Hwf.
  pose proof (createIndex_no_conflict titleIndexKeys _ ltac:(discriminate) Hwf) as O1.
  pose proof (createIndex_preserves_wf titleIndexKeys _ ltac:(discriminate) Hwf) as W1.
  destruct (createIndex titleIndexKeys (indexes s)) as [r1 ixs1] eqn:H1. simpl in O1, W1.
  pose proof (createIndex_no_conflict compoundIndexKeys _ ltac:(discriminate) W1) as O2.
  destruct (createIndex compoundIndexKeys ixs1) as [r2 ixs2] eqn:H2. simpl in O2.
  by rewrite (create_indexes_names fails s r1 ixs1 _ r2 ixs2 _ F1 F2 H1 O1 H2 O2).
Qed.

(** C12: the rerun bug of line 64 in the script itself: when the book
    titled "1984" exists and the update calls do not fail, running Task 4
    a second time prints "No book found with the title 1984" between its
    separator lines, because the first run already set the price to 9.99
    and the message is chosen by [modifiedCount]. *)
Theorem task4_run_twice fails s :
  fails (calls s) = false -> fails (S (calls s)) = false ->
  (exists b, In b (coll s) /\ title b = bookTitle) ->
  out (snd (task4_run fails (snd (task4_run fails s)))) =
    out (snd (task4_run fails s)) ++
      map Out [" TASK 4: UPDATE THE PRICE OF A CERTAIN BOOK"; rule 47;
               not_found_msg bookTitle; rule 47 +:+ nl].
Proof.
  intros F1 F2 Hb. rewrite (task4_run_refines fails s F1). simpl snd.
  rewrite task4_run_refines by exact F2. simpl. by rewrite task4_twice.
Qed.

Lemma runAllQueries_no_fault_witness :
  fst (runAllQueries no_failures no_millis (initial_state sample_books)) = Ok tt /\
  connected (snd (runAllQueries no_failures no_millis (initial_state sample_books))) = false /\
  coll (snd (runAllQueries no_failures no_millis (initial_state sample_books))) =
    snd (Writes.task5 (snd (Writes.task4 sample_books))).
Proof. apply runAllQueries_no_fault. reflexivity. Defined.

Lemma runAllQueries_error_reported_witness :
  out (snd (runAllQueries connect_fails no_millis (initial_state sample_books))) =
    out (snd (body connect_fails no_millis (initial_state sample_books))) ++
    [Err (" Error: " +:+ "MongoServerError"); Out closed_msg].
Proof. apply runAllQueries_error_reported; vm_compute; reflexivity. Defined.

(** The performance comparison on the sample collection, after the
    script has created its indexes. *)
Lemma performance_docs_examined_witness :
  let s := {| coll := sample_books; indexes := script_indexes; connected := true;
              out := []; calls := 0 |} in
  performance no_failures no_millis s =
    (Ok tt, {| coll := coll s; indexes := indexes s; connected := connected s;
               out := out s ++ map Out
                 [nl +:+ " QUERY PERFORMANCE COMPARISON:";
                  " Query: Find book titled " +:+ quoted "1984";
                  "   With Index - Execution Time: " +:+ pretty (no_millis (S (calls s))) +:+ " ms";
                  "   Documents Examined: " +:+
                    pretty (length (List.filter (matches titleQuery) (coll s)));
                  nl +:+ " Query: Find books by publisher 'HarperOne'";
                  "   Without Index - Execution Time: " +:+
                    pretty (no_millis (S (S (calls s)))) +:+ " ms";
                  "   Documents Examined: " +:+ pretty (length (coll s));
                  nl +:+ " Query: Find books by George Orwell published after 1940";
                  "   With Compound Index - Execution Time: " +:+
                    pretty (no_millis (S (S (S (calls s))))) +:+ " ms";
                  "   Documents Examined: " +:+
                    pretty (length (List.filter (matches compoundQuery) (coll s)))];
               calls := S (S (S (calls s))) |}).
Proof.
  cbv zeta.
  apply (performance_docs_examined no_failures no_millis
           {| coll := sample_books; indexes := script_indexes; connected := true;
              out := []; calls := 0 |}); reflexivity.
Defined.

(** A second run of the script: both indexes exist already, and the
    "Created" lines are printed again. *)
Lemma create_indexes_wf_witness :
  let s := {| coll := sample_books; indexes := script_indexes; connected := true;
              out := []; calls := 0 |} in
  fst (create_indexes no_failures s) = Ok tt /\
  out (snd (create_indexes no_failures s)) = out s ++ map Out
    [nl +:+ "⚡ INDEX CREATION AND PERFORMANCE DEMONSTRATION:";
     " Created index on 'title' field: title_1";
     " Created compound index on 'author' and 'published_year': author_1_published_year_-1"].
Proof. cbv zeta. apply create_indexes_wf; reflexivity. Defined.

Lemma task4_run_twice_witness :
  out (snd (task4_run no_failures (snd (task4_run no_failures (initial_state sample_books))))) =
    out (snd (task4_run no_failures (initial_state sample_books))) ++
      map Out [" TASK 4: UPDATE THE PRICE OF A CERTAIN BOOK"; rule 47;
               not_found_msg bookTitle; rule 47 +:+ nl].
Proof.
  apply task4_run_twice; [reflexivity|reflexivity|].
  exists nineteen84. split; [simpl; tauto|reflexivity].
Defined.

Example runAllQueries_run :
  let r := runAllQueries no_failures no_millis (initial_state sample_books) in
  fst r = Ok tt /\ length (out (snd r)) = 114%nat /\ calls (snd r) = 21%nat /\
  coll (snd r) = [mockingbird; set_price 999 nineteen84; brave; animal_farm; alchemist; moby] /\
  map ix_name (indexes (snd r)) = ["_id_"; "title_1"; "author_1_published_year_-1"].
Proof. cbv zeta. repeat split; vm_compute; reflexivity. Qed.

Example runAllQueries_connect_fails :
  runAllQueries connect_fails no_millis (initial_state sample_books) =
    (Ok tt, {| coll := sample_books; indexes := [id_index]; connected := false;
               out := [Err " Error: MongoServerError"; Out closed_msg]; calls := 2%nat |}).
Proof. vm_compute. reflexivity. Qed.
