(* ===== verification/Calls.v ===== *)
(** * Calls: how many driver calls a run of [runAllQueries] makes

    Every awaited driver call of src/queries.js goes through [call] of
    [Script], which counts it in the state's [calls], whether it succeeds
    or throws; console output does not count.  [CallsIn lo hi m] bounds
    the calls a piece [m] of the script makes, from every state and in
    every environment: at least [lo], at most [hi].  The lower bound of a
    sequence is the lower bound of its first step only (a thrown error
    skips the rest); when no call fails and the first step returns,
    the bounds of the steps add up.  The script makes 21 driver calls:
    [connect], 18 in the body and [close]. *)

From S2P Require Import Prelude Books Query Writes Aggregate Indexes Script.

Definition CallsIn {A} (lo hi : nat) (m : M A) : Prop :=
  forall s, (calls s + lo <= calls (snd (m s)) <= calls s + hi)%nat.

(** [m] returns normally from every state. *)
Definition Total {A} (m : M A) : Prop :=
  forall s, exists a, fst (m s) = Ok a.

Create HintDb calls.

(** ** Generic rules *)

Lemma ci_weaken {A} l h l' h' (m : M A) :
  CallsIn l h m -> (l' <= l)%nat -> (h <= h')%nat -> CallsIn l' h' m.
Proof. intros Hm Hl Hh s. specialize (Hm s). lia. Qed.

Lemma ci_ret {A} (a : A) : CallsIn 0 0 (ret a).
Proof. intros s. simpl. lia. Qed.

Lemma ci_log l : CallsIn 0 0 (log l).
Proof. intros s. simpl. lia. Qed.

Lemma ci_log_error l : CallsIn 0 0 (log_error l).
Proof. intros s. simpl. lia. Qed.

Lemma ci_bind {A B} l1 h1 l2 h2 (m : M A) (k : A -> M B) :
  CallsIn l1 h1 m -> (forall a, CallsIn l2 h2 (k a)) -> CallsIn l1 (h1 + h2) (bind m k).
Proof.
  intros Hm Hk s. specialize (Hm s). unfold bind.
  destruct (m s) as [[a|e] s']; simpl in *; [specialize (Hk a s')|]; lia.
Qed.

Lemma ci_bind_total {A B} l1 h1 l2 h2 (m : M A) (k : A -> M B) :
  Total m -> CallsIn l1 h1 m -> (forall a, CallsIn l2 h2 (k a)) ->
  CallsIn (l1 + l2) (h1 + h2) (bind m k).
Proof.
  intros Ht Hm Hk s. specialize (Hm s). destruct (Ht s) as [a Ha]. unfold bind.
  destruct (m s) as [r s']. simpl in *. subst r. specialize (Hk a s'). lia.
Qed.

Lemma ci_try_catch {A} l1 h1 h2 (m : M A) h :
  CallsIn l1 h1 m -> (forall e, CallsIn 0 h2 (h e)) -> CallsIn l1 (h1 + h2) (try_catch m h).
Proof.
  intros Hm Hh s. specialize (Hm s). unfold try_catch.
  destruct (m s) as [[a|e] s']; simpl in *; [|specialize (Hh e s')]; lia.
Qed.

Lemma ci_try_finally {A} l1 h1 l2 h2 (m : M A) f :
  CallsIn l1 h1 m -> CallsIn l2 h2 f -> CallsIn (l1 + l2) (h1 + h2) (try_finally m f).
Proof.
  intros Hm Hf s. specialize (Hm s). unfold try_finally.
  destruct (m s) as [r s1]. specialize (Hf s1). simpl in *.
  destruct (f s1) as [[]?]; simpl in *; lia.
Qed.

Lemma ci_forEach {A} (xs : list A) f : (forall x, CallsIn 0 0 (f x)) -> CallsIn 0 0 (forEach xs f).
Proof.
  intros Hf. induction xs as [|x xs IH]; simpl; [apply ci_ret|].
  eapply ci_weaken; [eapply ci_bind; [apply Hf|intros _; exact IH]|lia|lia].
Qed.

Lemma ci_if {A} l h (b : bool) (m1 m2 : M A) :
  CallsIn l h m1 -> CallsIn l h m2 -> CallsIn l h (if b then m1 else m2).
Proof. by destruct b. Qed.

(** ** Totality *)

Lemma total_ret {A} (a : A) : Total (ret a).
Proof. intros s. by exists a. Qed.

Lemma total_log l : Total (log l).
Proof. intros s. by exists tt. Qed.

Lemma total_bind {A B} (m : M A) (k : A -> M B) :
  Total m -> (forall a, Total (k a)) -> Total (bind m k).
Proof.
  intros Hm Hk s. destruct (Hm s) as [a Ha]. unfold bind.
  destruct (m s) as [r s']. simpl in Ha. subst r. apply Hk.
Qed.

Lemma total_try_catch {A} (m : M A) h : (forall e, Total (h e)) -> Total (try_catch m h).
Proof.
  intros Hh s. unfold try_catch. destruct (m s) as [[a|e] s']; [by exists a|apply Hh].
Qed.

Lemma total_forEach {A} (xs : list A) f : (forall x, Total (f x)) -> Total (forEach xs f).
Proof. intros Hf. induction xs; simpl; [apply total_ret|]. by apply total_bind. Qed.

Lemma total_if {A} (b : bool) (m1 m2 : M A) : Total m1 -> Total m2 -> Total (if b then m1 else m2).
Proof. by destruct b. Qed.


#[export] Hint Resolve ci_ret ci_log ci_log_error total_ret total_log : calls.

(** ** The script's driver calls *)

Section Counting.
Variable fails : nat -> bool.
Variable millis : nat -> nat.

(** An operation of the driver does not touch the call counter; [call]
    adds one, whether the call fails or not. *)
Lemma ci_call {A} (op : state -> outcome A * state) :
  (forall s, calls (snd (op s)) = calls s) -> CallsIn 1 1 (call fails op).
Proof.
  intros Hop s. unfold call. destruct (fails (calls s)); simpl; [lia|].
  rewrite Hop. simpl. lia.
Qed.

Lemma ci_connect : CallsIn 1 1 (connect fails).
Proof. by apply ci_call. Qed.

Lemma ci_close : CallsIn 1 1 (close fails).
Proof. by apply ci_call. Qed.

Lemma ci_find q o : CallsIn 1 1 (find_toArray fails q o).
Proof. by apply ci_call. Qed.

Lemma ci_updateOne q p : CallsIn 1 1 (updateOne_call fails q p).
Proof. apply ci_call. intros s. by destruct (updateOne q p (coll s)). Qed.

Lemma ci_deleteOne q : CallsIn 1 1 (deleteOne_call fails q).
Proof. apply ci_call. intros s. by destruct (deleteOne q (coll s)). Qed.

Lemma ci_aggregate {R} (p : list book -> list R) : CallsIn 1 1 (aggregate_toArray fails p).
Proof. by apply ci_call. Qed.

Lemma ci_createIndex keys : CallsIn 1 1 (createIndex_call fails keys).
Proof.
  apply ci_call. intros s. destruct (createIndex keys (indexes s)) as [r ixs].
  by destruct (create_outcome r).
Qed.

Lemma ci_explain q : CallsIn 1 1 (explain_call fails millis q).
Proof. by apply ci_call. Qed.

Section FaultFree.
Hypothesis no_fault : forall n, fails n = false.

Lemma total_call {A} (op : state -> outcome A * state) :
  (forall s, exists a, fst (op s) = Ok a) -> Total (call fails op).
Proof. intros Hop s. unfold call. rewrite no_fault. apply Hop. Qed.

Lemma total_connect : Total (connect fails).
Proof. apply total_call. intros s. by exists tt. Qed.

Lemma total_find q o : Total (find_toArray fails q o).
Proof. apply total_call. intros s. by eexists. Qed.

Lemma total_updateOne q p : Total (updateOne_call fails q p).
Proof. apply total_call. intros s. destruct (updateOne q p (coll s)). by eexists. Qed.

Lemma total_deleteOne q : Total (deleteOne_call fails q).
Proof. apply total_call. intros s. destruct (deleteOne q (coll s)). by eexists. Qed.

Lemma total_aggregate {R} (p : list book -> list R) : Total (aggregate_toArray fails p).
Proof. apply total_call. intros s. by eexists. Qed.

Lemma total_explain q : Total (explain_call fails millis q).
Proof. apply total_call. intros s. by eexists. Qed.


End FaultFree.
End Counting.

#[local] Hint Resolve ci_connect ci_close ci_find ci_updateOne ci_deleteOne ci_aggregate
  ci_createIndex ci_explain : calls.

Ltac unfold_script :=
  unfold runAllQueries, body, task1, task2, task3, task4_run, task5_run, advanced1,
    advanced2, advanced3, advanced4, advanced5, aggregation1, aggregation2, aggregation3,
    create_indexes, performance, stats_lines.

(** Bounds in every environment: [connect] and [close] are always
    called, and no call is made twice. *)
Ltac calls_in := repeat first
  [ eapply ci_try_finally | eapply ci_try_catch; [|intros ?]
  | eapply ci_bind; [|intros ?] | eapply ci_forEach; intros ?; eapply ci_weaken | eapply ci_if
  | solve [eauto with calls] ].

Lemma runAllQueries_calls_in fails millis : CallsIn 2 21 (runAllQueries fails millis).
Proof. unfold_script. eapply ci_weaken; [calls_in|..]; lia. Qed.

#[local] Hint Resolve total_connect total_find total_updateOne total_deleteOne total_aggregate
  total_explain : calls.

Ltac total := repeat first
  [ apply total_bind; [|intros ?] | apply total_try_catch; intros ?
  | apply total_forEach; intros ? | apply total_if | solve [eauto with calls] ].

(** With no failing call every step returns, so the calls of a sequence
    add up. *)
Ltac calls_exact := repeat first
  [ eapply ci_try_finally | eapply ci_try_catch; [|intros ?]
  | eapply ci_bind_total; [solve [total]| |intros ?]
  | eapply ci_bind; [|intros ?] | eapply ci_forEach; intros ?; eapply ci_weaken | eapply ci_if
  | solve [eauto with calls] ].

(** ** Theorems *)

(** C15: whatever calls fail, a run of [runAllQueries] makes at least two
    driver calls ([client.connect()] and [client.close()] are always
    issued) and at most 21 (no call is issued twice, none is retried). *)
Theorem runAllQueries_calls_bounds fails millis s0 :
  (calls s0 + 2 <= calls (snd (runAllQueries fails millis s0)) <= calls s0 + 21)%nat.
Proof. apply runAllQueries_calls_in. Qed.

(** C14: when no call fails, the run reaches every driver call of the
    script: it issues all 21 of them ([connect], the 18 queries, updates,
    deletes, aggregations, index creations and explains, and [close]). *)
Theorem runAllQueries_all_calls fails millis s0 :
  (forall n, fails n = false) ->
  calls (snd (runAllQueries fails millis s0)) = (calls s0 + 21)%nat.
Proof.
  intros NF. enough (H : CallsIn 21 21 (runAllQueries fails millis)) by (specialize (H s0); lia).
  unfold_script. eapply ci_weaken; [calls_exact|..]; lia.
Qed.

Lemma runAllQueries_all_calls_witness :
  calls (snd (runAllQueries no_failures no_millis (initial_state sample_books))) = 21%nat.
Proof. apply (runAllQueries_all_calls no_failures no_millis (initial_state sample_books)). done. Defined.

Example runAllQueries_connect_fails_calls :
  calls (snd (runAllQueries connect_fails no_millis (initial_state sample_books))) = 2%nat.
Proof. vm_compute. reflexivity. Qed.
